(** * Feature gates and cohort sampling of the auth server

    A shallow embedding of [lib/features.js]: the cohort sampler
    [isSampledUser] and the four gate predicates built on it.

    JavaScript numbers are IEEE 754 binary64 values ([spec_float] with
    precision 53 and maximal exponent 1024), strings are [string], a
    [Buffer] is a list of bytes.  The [crypto] module is a dependency of
    the file (the unit tests replace it through [proxyquire]); it enters
    the embedding as a parameter, and each call made to it is recorded in
    a call log, the way the test spies count them. *)

From Stdlib Require Import ZArith Lia Bool List Ascii String.
From Stdlib Require Import Strings.Byte Strings.HexString Floats.SpecFloat.
Import ListNotations.

Local Open Scope string_scope.
Local Open Scope Z_scope.

(** ** JavaScript numbers *)

Definition number : Type := spec_float.

Module Num.
Definition prec : Z := 53.
Definition emax : Z := 1024.

Definition NaN : number := S754_nan.

(** The number denoting a mathematical integer (rounded to nearest, ties
    to even, when it has more than 53 significant bits). *)
Definition of_Z (n : Z) : number := binary_normalize prec emax n 0 false.

Definition neg : number -> number := SFopp.
Definition div : number -> number -> number := SFdiv prec emax.

(** [x < y], [x <= y] and [x === y] on numbers. *)
Definition ltb : number -> number -> bool := SFltb.
Definition leb : number -> number -> bool := SFleb.
Definition strict_eq : number -> number -> bool := SFeqb.

Definition zero : number := of_Z 0.
Definition one : number := of_Z 1.

(** [Number.MAX_SAFE_INTEGER] *)
Definition MAX_SAFE_INTEGER : Z := 2 ^ 53 - 1.
End Num.

(** ** JavaScript strings *)

Module Str.
Definition length (s : string) : Z := Z.of_nat (String.length s).

(** [s.substr(start)]: a negative [start] counts from the end. *)
Definition substr (s : string) (start : Z) : string :=
  let len := length s in
  let from := if start <? 0 then Z.max (len + start) 0 else Z.min start len in
  String.substring (Z.to_nat from) (Z.to_nat (len - from)) s.

Fixpoint indexOf_from (s : string) (c : ascii) (i : Z) : Z :=
  match s with
  | EmptyString => -1
  | String d s' => if Ascii.eqb d c then i else indexOf_from s' c (i + 1)
  end.

(** [s.indexOf(c)] for a one-character needle; -1 when absent. *)
Definition indexOf (s : string) (c : ascii) : Z := indexOf_from s c 0.

Fixpoint replicate (n : nat) (c : ascii) : string :=
  match n with
  | O => EmptyString
  | S n' => String c (replicate n' c)
  end.

(** [Array(n).fill(c).join('')] *)
Definition fill_join (n : Z) (c : ascii) : string := replicate (Z.to_nat n) c.

(** [n.toString(16)] for an integer [n]. *)
Definition toString16 (n : Z) : string :=
  match n with
  | Z0 => "0"
  | Zpos p => HexString.Raw.of_pos p ""
  | Zneg p => String "-" (HexString.Raw.of_pos p "")
  end.

Definition code (c : ascii) : Z := Z.of_nat (nat_of_ascii c).

(** Value of a hexadecimal digit, either case. *)
Definition hex_digit (c : ascii) : option Z :=
  let n := code c in
  if (48 <=? n) && (n <=? 57) then Some (n - 48)
  else if (97 <=? n) && (n <=? 102) then Some (n - 87)
  else if (65 <=? n) && (n <=? 70) then Some (n - 55)
  else None.

(** White space skipped by [parseInt] (code units below 256). *)
Definition is_white_space (c : ascii) : bool :=
  let n := code c in
  ((9 <=? n) && (n <=? 13)) || (n =? 32) || (n =? 160).

Fixpoint skip_white_space (s : string) : string :=
  match s with
  | String c s' => if is_white_space c then skip_white_space s' else s
  | EmptyString => s
  end.

(** The longest prefix of hexadecimal digits, as an integer; [acc] is
    [None] as long as no digit has been read. *)
Fixpoint parse_hex_digits (s : string) (acc : option Z) : option Z :=
  match s with
  | EmptyString => acc
  | String c s' =>
      match hex_digit c with
      | Some d =>
          parse_hex_digits s'
            (Some (16 * match acc with Some a => a | None => 0 end + d))
      | None => acc
      end
  end.

Definition strip_sign (s : string) : bool * string :=
  match s with
  | String "-" s' => (true, s')
  | String "+" s' => (false, s')
  | _ => (false, s)
  end.

Definition strip_0x (s : string) : string :=
  match s with
  | String "0" (String "x" s') => s'
  | String "0" (String "X" s') => s'
  | _ => s
  end.

(** [parseInt(s, 16)] *)
Definition parseInt16 (s : string) : number :=
  let '(negative, digits) := strip_sign (skip_white_space s) in
  match parse_hex_digits (strip_0x digits) None with
  | None => Num.NaN
  | Some v => if negative then Num.neg (Num.of_Z v) else Num.of_Z v
  end.
End Str.

(** ** Buffers *)

Module Buffer.
Definition t : Type := list byte.

Definition hex_char (n : Z) : ascii :=
  ascii_of_nat (Z.to_nat (if n <? 10 then 48 + n else 87 + n)).

Definition byte_hex (b : byte) : string :=
  let n := Z.of_N (Byte.to_N b) in
  String (hex_char (n / 16)) (String (hex_char (n mod 16)) EmptyString).

(** [buf.toString('hex')] *)
Fixpoint toString_hex (buf : t) : string :=
  match buf with
  | [] => EmptyString
  | b :: buf' => byte_hex b ++ toString_hex buf'
  end.

(** [Buffer.alloc(n, b)] *)
Definition alloc (n : nat) (b : byte) : t := List.repeat b n.
End Buffer.


(** ** Values, completions and the call log *)

(** The values a gate can return: a boolean, or [undefined] where a
    short-circuiting [&&] hands back an absent property. *)
Inductive JsVal : Type :=
| VUndefined
| VBool (b : bool).

Inductive JsError : Type :=
| TypeError.

(** Calls made to the [crypto] module, in order. *)
Inductive CryptoCall : Type :=
| CreateHash (algorithm : string)
| Update (data : string)
| Digest (encoding : string).

Inductive Completion (A : Type) : Type :=
| Normal (a : A)
| Throw (e : JsError).

Arguments Normal {A} a.
Arguments Throw {A} e.

(** A computation: it extends the call log and either returns or throws. *)
Definition Eff (A : Type) : Type :=
  list CryptoCall -> Completion A * list CryptoCall.

Definition ret {A} (a : A) : Eff A := fun log => (Normal a, log).

Definition throw {A} (e : JsError) : Eff A := fun log => (Throw e, log).

Definition bind {A B} (m : Eff A) (k : A -> Eff B) : Eff B :=
  fun log =>
    match m log with
    | (Normal a, log') => k a log'
    | (Throw e, log') => (Throw e, log')
    end.

Definition call (c : CryptoCall) : Eff unit :=
  fun log => (Normal tt, (log ++ [c])%list).

Declare Scope eff_scope.
Delimit Scope eff_scope with eff.
Notation "x <- m ;; k" := (bind m (fun x => k))
  (at level 61, m at next level, right associativity) : eff_scope.
Notation "m ;; k" := (bind m (fun _ => k))
  (at level 61, right associativity) : eff_scope.
Local Open Scope eff_scope.

(** ** Configuration and request *)

(** A regular expression without the [g] and [y] flags, as a predicate:
    [re.test(s)] reads no state. *)
Record RegExp : Type := { test : string -> bool }.

(** [re.test(s)] on an entry that may be absent: calling a method of
    [undefined] throws.  The entries typed [option] below are the one the
    code guards ([signinUnblock.forcedEmailAddresses], and likewise
    [securityHistory.ipProfiling]) and the two the specification calls
    optional although the code calls [test] on them unguarded. *)
Definition test_method (re : option RegExp) (s : string) : Eff bool :=
  match re with
  | Some r => ret (test r s)
  | None => throw TypeError
  end.

Module LastAccessTimeUpdates.
Record t : Type :=
  { enabled : bool;
    sampleRate : number;
    enabledEmailAddresses : option RegExp }.
End LastAccessTimeUpdates.

Module SigninConfirmation.
Record t : Type :=
  { enabled : bool;
    sample_rate : number;
    forcedEmailAddresses : RegExp;
    supportedClients : list string }.
End SigninConfirmation.

Module SigninUnblock.
Record t : Type :=
  { enabled : bool;
    sampleRate : number;
    forcedEmailAddresses : option RegExp;
    allowedEmailAddresses : option RegExp;
    supportedClients : list string }.
End SigninUnblock.

Module IpProfiling.
Record t : Type := { enabled : bool }.
End IpProfiling.

Module SecurityHistory.
Record t : Type :=
  { enabled : bool;
    ipProfiling : option IpProfiling.t }.
End SecurityHistory.

Record Config : Type :=
  { lastAccessTimeUpdates : LastAccessTimeUpdates.t;
    signinConfirmation : SigninConfirmation.t;
    signinUnblock : SigninUnblock.t;
    securityHistory : SecurityHistory.t }.

Record MetricsContext : Type := { context : option string }.
Record Payload : Type := { metricsContext : option MetricsContext }.
Record App : Type := { isSuspiciousRequest : bool }.
Record Request : Type := { app : App; payload : option Payload }.

(** [request.payload && request.payload.metricsContext &&
    request.payload.metricsContext.context]; [None] is [undefined]. *)
Definition request_context (request : Request) : option string :=
  match payload request with
  | None => None
  | Some p =>
      match metricsContext p with
      | None => None
      | Some m => context m
      end
  end.

Fixpoint indexOf_from (l : list string) (x : option string) (i : Z) : Z :=
  match l with
  | [] => -1
  | y :: l' =>
      match x with
      | Some s => if String.eqb y s then i else indexOf_from l' x (i + 1)
      | None => indexOf_from l' x (i + 1)
      end
  end.

(** [l.indexOf(x)] on an array of strings: strict equality, -1 when absent. *)
Definition indexOf (l : list string) (x : option string) : Z :=
  indexOf_from l x 0.

(** A user id: [Buffer or String]. *)
Inductive Uid : Type :=
| UidBuffer (b : Buffer.t)
| UidString (s : string).

(** ** The module *)

Section Features.

(** [crypto.createHash('sha1')], fed through [update] and read with
    [digest('hex')]: the hexadecimal digest of the data written so far. *)
Variable sha1_hex : string -> string.

Definition hash (uid key : string) : Eff string :=
  call (CreateHash "sha1") ;;
  call (Update uid) ;;
  call (Update key) ;;
  call (Digest "hex") ;;
  ret (sha1_hex (uid ++ key)).

(** The four constants are computed when the module is loaded. *)
Definition HASH_LENGTH : Z := Str.length (sha1_hex ("" ++ "")).
Definition MAX_SAFE_HEX : string := Str.toString16 Num.MAX_SAFE_INTEGER.
Definition MAX_SAFE_HEX_LENGTH : Z :=
  Str.length MAX_SAFE_HEX - Str.indexOf MAX_SAFE_HEX "f".
Definition COHORT_DIVISOR : number :=
  Str.parseInt16 (Str.fill_join MAX_SAFE_HEX_LENGTH "f").

Definition uid_text (uid : Uid) : string :=
  match uid with
  | UidBuffer b => Buffer.toString_hex b
  | UidString s => s
  end.

(** The cohort value extracted from a digest. *)
Definition cohort_of (digest : string) : number :=
  Num.div
    (Str.parseInt16 (Str.substr digest (HASH_LENGTH - MAX_SAFE_HEX_LENGTH)))
    COHORT_DIVISOR.

Definition isSampledUser (sampleRate : number) (uid : Uid) (key : string)
  : Eff bool :=
  if Num.strict_eq sampleRate Num.one then ret true
  else if Num.strict_eq sampleRate Num.zero then ret false
  else
    let uid := uid_text uid in
    digest <- hash uid key ;;
    let cohort := cohort_of digest in
    ret (Num.ltb cohort sampleRate).

Variable config : Config.

Definition isLastAccessTimeEnabledForUser (uid : Uid) (email : string)
  : Eff bool :=
  let lastAccessTimeUpdates := lastAccessTimeUpdates config in
  if LastAccessTimeUpdates.enabled lastAccessTimeUpdates then
    sampled <- isSampledUser
                 (LastAccessTimeUpdates.sampleRate lastAccessTimeUpdates)
                 uid "lastAccessTimeUpdates" ;;
    if sampled then ret true
    else
      test_method
        (LastAccessTimeUpdates.enabledEmailAddresses lastAccessTimeUpdates)
        email
  else ret false.

Definition isSigninConfirmationEnabledForUser
  (uid : Uid) (email : string) (request : Request) : Eff bool :=
  let signinConfirmation := signinConfirmation config in
  if negb (SigninConfirmation.enabled signinConfirmation) then ret false
  else if isSuspiciousRequest (app request) then ret true
  else if test (SigninConfirmation.forcedEmailAddresses signinConfirmation)
            email
  then ret true
  else
    let context := request_context request in
    if indexOf (SigninConfirmation.supportedClients signinConfirmation)
         context =? -1
    then ret false
    else
      isSampledUser (SigninConfirmation.sample_rate signinConfirmation)
        uid "signinConfirmation".

Definition isSigninUnblockEnabledForUser
  (uid : Uid) (email : string) (request : Request) : Eff bool :=
  let signinUnblock := signinUnblock config in
  if negb (SigninUnblock.enabled signinUnblock) then ret false
  else
    forced <- match SigninUnblock.forcedEmailAddresses signinUnblock with
              | None => ret false
              | Some re => ret (test re email)
              end ;;
    if forced then ret true
    else
      allowed <- test_method
                   (SigninUnblock.allowedEmailAddresses signinUnblock)
                   email ;;
      if allowed then ret true
      else
        let context := request_context request in
        if indexOf (SigninUnblock.supportedClients signinUnblock) context
           =? -1
        then ret false
        else
          isSampledUser (SigninUnblock.sampleRate signinUnblock)
            uid "signinUnblock".

Definition canBypassSiginConfirmation
  (email : string) (verified : bool) (recency : string) : Eff JsVal :=
  let signinConfirmation := signinConfirmation config in
  let securityHistory := securityHistory config in
  if SigninConfirmation.enabled signinConfirmation
     && test (SigninConfirmation.forcedEmailAddresses signinConfirmation)
          email
  then ret (VBool false)
  else
    let ipProfilingEnabled :=
      if SecurityHistory.enabled securityHistory then
        match SecurityHistory.ipProfiling securityHistory with
        | None => VUndefined
        | Some p => VBool (IpProfiling.enabled p)
        end
      else VBool false in
    match ipProfilingEnabled with
    | VBool true =>
        if verified then ret (VBool (String.eqb recency "day"))
        else ret (VBool false)
    | falsy => ret falsy
    end.

End Features.

(** ** Fixtures of the unit tests

    [test/local/features.js] replaces [crypto] by a stub whose digest is a
    fixed string, and fills the configuration one feature at a time. *)

Module Fixture.

(** [Array(n).fill(c).join('')], of which the stub digests are made. *)
Definition stub (hashResult : string) : string -> string :=
  fun _ => hashResult.

Definition all_f : string := Str.fill_join 40 "f".
Definition all_0 : string := Str.fill_join 40 "0".
Definition cohort_04 : string := "0000000000000000000000000000a3d70a3d70a6".
Definition cohort_02 : string := "000000000000000000000000000051eb851eb852".

Definition line_terminator (c : ascii) : bool :=
  let n := Str.code c in (n =? 10) || (n =? 13).

Fixpoint rev_chars (s : string) (acc : list ascii) : list ascii :=
  match s with
  | EmptyString => acc
  | String c s' => rev_chars s' (c :: acc)
  end.

(** Does [s], read from its end, show [pat] (in reverse; [None] stands
    for [.]) and then at least one character that [.] accepts? *)
Fixpoint ends_with (pat : list (option ascii)) (s : list ascii) : bool :=
  match pat, s with
  | [], c :: _ => negb (line_terminator c)
  | [], [] => false
  | _ :: _, [] => false
  | Some p :: pat', c :: s' => Ascii.eqb p c && ends_with pat' s'
  | None :: pat', c :: s' => negb (line_terminator c) && ends_with pat' s'
  end.

Definition literal (s : string) : list (option ascii) :=
  map Some (rev_chars s []).

(** [/.+@mozilla\.com$/], [/.+@mozilla\.org$/], [/.+@force\.com$/] *)
Definition mozilla_com : RegExp :=
  {| test := fun s => ends_with (literal "@mozilla.com") (rev_chars s []) |}.
Definition mozilla_org : RegExp :=
  {| test := fun s => ends_with (literal "@mozilla.org") (rev_chars s []) |}.
Definition force_com : RegExp :=
  {| test := fun s => ends_with (literal "@force.com") (rev_chars s []) |}.

(** [/.+@notmozilla.com$/]: the dot before [com] is not escaped. *)
Definition notmozilla_com : RegExp :=
  {| test := fun s =>
       ends_with (literal "com" ++ [None] ++ literal "@notmozilla")%list
         (rev_chars s []) |}.

(** [/.+/] and [/^$/] *)
Definition anything : RegExp :=
  {| test := fun s => existsb (fun c => negb (line_terminator c))
                        (rev_chars s []) |}.
Definition nothing : RegExp :=
  {| test := fun s => match s with EmptyString => true | _ => false end |}.

Definition rate (percent : Z) : number :=
  Num.div (Num.of_Z percent) (Num.of_Z 100).

Definition uid_ff : Uid := UidBuffer (Buffer.alloc 32 xff).
Definition uid_77 : Uid := UidString (Str.fill_join 64 "7").

(** A configuration; the tests overwrite one feature at a time. *)
Definition lau (on : bool) (percent : Z) (re : option RegExp) :=
  {| LastAccessTimeUpdates.enabled := on;
     LastAccessTimeUpdates.sampleRate := rate percent;
     LastAccessTimeUpdates.enabledEmailAddresses := re |}.

Definition confirmation (on : bool) (r : number) (re : RegExp) :=
  {| SigninConfirmation.enabled := on;
     SigninConfirmation.sample_rate := r;
     SigninConfirmation.forcedEmailAddresses := re;
     SigninConfirmation.supportedClients := ["wibble"; "iframe"] |}.

Definition unblock (on : bool) (percent : Z) (forced allowed : option RegExp) :=
  {| SigninUnblock.enabled := on;
     SigninUnblock.sampleRate := rate percent;
     SigninUnblock.forcedEmailAddresses := forced;
     SigninUnblock.allowedEmailAddresses := allowed;
     SigninUnblock.supportedClients := ["wibble"; "iframe"] |}.

Definition history (on : bool) (profiling : option bool) :=
  {| SecurityHistory.enabled := on;
     SecurityHistory.ipProfiling :=
       option_map (fun b => {| IpProfiling.enabled := b |}) profiling |}.

Definition base : Config :=
  {| lastAccessTimeUpdates := lau false 0 None;
     signinConfirmation := confirmation false (rate 2) mozilla_org;
     signinUnblock := unblock false 0 None None;
     securityHistory := history false None |}.

Definition with_lau (x : LastAccessTimeUpdates.t) (c : Config) : Config :=
  {| lastAccessTimeUpdates := x;
     signinConfirmation := signinConfirmation c;
     signinUnblock := signinUnblock c;
     securityHistory := securityHistory c |}.

Definition with_confirmation (x : SigninConfirmation.t) (c : Config) : Config :=
  {| lastAccessTimeUpdates := lastAccessTimeUpdates c;
     signinConfirmation := x;
     signinUnblock := signinUnblock c;
     securityHistory := securityHistory c |}.

Definition with_unblock (x : SigninUnblock.t) (c : Config) : Config :=
  {| lastAccessTimeUpdates := lastAccessTimeUpdates c;
     signinConfirmation := signinConfirmation c;
     signinUnblock := x;
     securityHistory := securityHistory c |}.

Definition with_history (x : SecurityHistory.t) (c : Config) : Config :=
  {| lastAccessTimeUpdates := lastAccessTimeUpdates c;
     signinConfirmation := signinConfirmation c;
     signinUnblock := signinUnblock c;
     securityHistory := x |}.

Definition request (suspicious : bool) (ctx : string) : Request :=
  {| app := {| isSuspiciousRequest := suspicious |};
     payload :=
       Some {| metricsContext := Some {| context := Some ctx |} |} |}.

Definition returns {A} (m : Eff A) : Completion A := fst (m []).

End Fixture.

(** ** The specification's reading

    The gates as the specification words them, to be compared with the
    embedding of the code. *)

Module Spec.

(** Membership of the client context in the supported-client set. *)
Definition supported (clients : list string) (clientContext : option string)
  : bool :=
  match clientContext with
  | Some c => existsb (String.eqb c) clients
  | None => false
  end.

(** An optional pattern: absent, it matches no email. *)
Definition matches (pattern : option RegExp) (email : string) : bool :=
  match pattern with
  | Some re => test re email
  | None => false
  end.

(** The overrides of [signinConfirmationEnabled], in their order: [Some b]
    when one of them decides, [None] when the decision is the sampler's. *)
Definition signinConfirmation_override
  (enabled : bool) (forced : RegExp) (clients : list string)
  (email : string) (suspicious : bool) (clientContext : option string)
  : option bool :=
  if negb enabled then Some false
  else if suspicious then Some true
  else if test forced email then Some true
  else if negb (supported clients clientContext) then Some false
  else None.

(** The overrides of [signinUnblockEnabled], in their order. *)
Definition signinUnblock_override
  (enabled : bool) (forced : option RegExp) (allowed : RegExp)
  (clients : list string) (email : string) (clientContext : option string)
  : option bool :=
  if negb enabled then Some false
  else if matches forced email then Some true
  else if test allowed email then Some true
  else if negb (supported clients clientContext) then Some false
  else None.

(** The trailing window of a digest. *)
Definition window (digits : nat) (digest : string) : string :=
  String.substring (String.length digest - digits) digits digest.

(** A string of hexadecimal digits read as an unsigned integer. *)
Fixpoint unsigned_hex (s : string) : Z :=
  match s with
  | EmptyString => 0
  | String c s' =>
      match Str.hex_digit c with
      | Some d => d
      | None => 0
      end * 16 ^ Z.of_nat (String.length s') + unsigned_hex s'
  end.

(** The cohort value of a digest: its last 13 hexadecimal characters, as
    an unsigned integer, over [0xfffffffffffff]. *)
Definition cohort (digest : string) : number :=
  Num.div (Num.of_Z (unsigned_hex (window 13 digest)))
    (Num.of_Z 0xfffffffffffff).

(** The intervals [[0,1)] and [[0,1]] of numbers. *)
Definition in_unit_right_open (x : number) : Prop :=
  Num.leb Num.zero x = true /\ Num.ltb x Num.one = true.

Definition in_unit_closed (x : number) : Prop :=
  Num.leb Num.zero x = true /\ Num.leb x Num.one = true.

End Spec.

(** ** Well-formed inputs *)

Definition lower_hex (c : ascii) : bool :=
  let n := Str.code c in
  ((48 <=? n) && (n <=? 57)) || ((97 <=? n) && (n <=? 102)).

Fixpoint all_chars (p : ascii -> bool) (s : string) : bool :=
  match s with
  | EmptyString => true
  | String c s' => p c && all_chars p s'
  end.

(** What [digest('hex')] of a 160-bit hash returns: 40 characters, each a
    lowercase hexadecimal digit. *)
Definition is_hex_digest (s : string) : bool :=
  Nat.eqb (String.length s) 40 && all_chars lower_hex s.

Definition hex_digests (sha1_hex : string -> string) : Prop :=
  forall data, is_hex_digest (sha1_hex data) = true.

(** The calls one digest computation makes to [crypto]. *)
Definition hash_calls (uid key : string) : list CryptoCall :=
  [CreateHash "sha1"; Update uid; Update key; Digest "hex"].

(** Outcome and call log of a computation. *)
Definition outcome {A} (r : Completion A * list CryptoCall) : Completion A :=
  fst r.

(** The sampler's decision, as a boolean. *)
Definition sampled
  (sha1_hex : string -> string) (sampleRate : number) (uid : Uid)
  (key : string) : bool :=
  match outcome (isSampledUser sha1_hex sampleRate uid key []) with
  | Normal b => b
  | Throw _ => false
  end.

(** Updates of single configuration entries. *)
Definition set_history_enabled (b : bool) (c : Config) : Config :=
  {| lastAccessTimeUpdates := lastAccessTimeUpdates c;
     signinConfirmation := signinConfirmation c;
     signinUnblock := signinUnblock c;
     securityHistory :=
       {| SecurityHistory.enabled := b;
          SecurityHistory.ipProfiling :=
            SecurityHistory.ipProfiling (securityHistory c) |} |}.

Definition set_profiling_enabled (b : bool) (c : Config) : Config :=
  {| lastAccessTimeUpdates := lastAccessTimeUpdates c;
     signinConfirmation := signinConfirmation c;
     signinUnblock := signinUnblock c;
     securityHistory :=
       {| SecurityHistory.enabled :=
            SecurityHistory.enabled (securityHistory c);
          SecurityHistory.ipProfiling :=
            Some {| IpProfiling.enabled := b |} |} |}.

Definition set_unblock_forced (re : option RegExp) (c : Config) : Config :=
  {| lastAccessTimeUpdates := lastAccessTimeUpdates c;
     signinConfirmation := signinConfirmation c;
     signinUnblock :=
       {| SigninUnblock.enabled := SigninUnblock.enabled (signinUnblock c);
          SigninUnblock.sampleRate :=
            SigninUnblock.sampleRate (signinUnblock c);
          SigninUnblock.forcedEmailAddresses := re;
          SigninUnblock.allowedEmailAddresses :=
            SigninUnblock.allowedEmailAddresses (signinUnblock c);
          SigninUnblock.supportedClients :=
            SigninUnblock.supportedClients (signinUnblock c) |};
     securityHistory := securityHistory c |}.

(** A pattern that matches no string. *)
Definition never : RegExp := {| test := fun _ => false |}.

(** Bounds of a 53-bit mantissa, and the mantissa of [0xfffffffffffff]
    as a number (its exponent is -1). *)
Definition two52 : Z := 4503599627370496.
Definition two53 : Z := 9007199254740992.
Definition divisor_mantissa : positive := 9007199254740990.

(** The sixteen lowercase hexadecimal digits. *)
Definition lower_hex_digits : list ascii :=
  ["0"; "1"; "2"; "3"; "4"; "5"; "6"; "7"; "8"; "9";
   "a"; "b"; "c"; "d"; "e"; "f"]%char.

(** ** Statements of the specification that the code does not satisfy *)

(** "A cohort value in [[0,1)]": the cohort of every digest is at least 0
    and below 1. *)
Definition cohort_below_one
  (sha1_hex : string -> string) (uid key : string) : Prop :=
  Spec.in_unit_right_open (cohort_of sha1_hex (sha1_hex (uid ++ key))).

(** "A cohort value exactly equal to the rate is not sampled", for a rate
    in [[0,1]]. *)
Definition equal_cohort_not_sampled
  (sha1_hex : string -> string) (sampleRate : number) (uid : Uid)
  (key : string) : Prop :=
  Num.leb Num.zero sampleRate = true ->
  Num.leb sampleRate Num.one = true ->
  Num.strict_eq (cohort_of sha1_hex (sha1_hex (uid_text uid ++ key)))
    sampleRate = true ->
  forall log,
    outcome (isSampledUser sha1_hex sampleRate uid key log) = Normal false.

(** "A forced-confirmation email always yields false", whatever the
    configuration. *)
Definition forced_email_never_bypasses (config : Config) (email : string)
  : Prop :=
  test (SigninConfirmation.forcedEmailAddresses (signinConfirmation config))
    email = true ->
  forall verified recency log,
    outcome (canBypassSiginConfirmation config email verified recency log)
    = Normal (VBool false).

(** "An absent optional pattern matches no email, and is no error", for
    the three optional patterns. *)
Definition absent_patterns_tolerated (sha1_hex : string -> string) : Prop :=
  forall config uid email request log,
    (SigninUnblock.forcedEmailAddresses (signinUnblock config) = None ->
     exists b,
       outcome (isSigninUnblockEnabledForUser sha1_hex config uid email
                  request log) = Normal b)
    /\ (SigninUnblock.allowedEmailAddresses (signinUnblock config) = None ->
        exists b,
          outcome (isSigninUnblockEnabledForUser sha1_hex config uid email
                     request log) = Normal b)
    /\ (LastAccessTimeUpdates.enabledEmailAddresses
          (lastAccessTimeUpdates config) = None ->
        exists b,
          outcome (isLastAccessTimeEnabledForUser sha1_hex config uid email
                     log) = Normal b).


(** "[signinUnblockEnabled] follows its overrides for every gate
    configuration", an absent allowed-email pattern matching no email. *)
Definition unblock_precedence_for_every_configuration
  (sha1_hex : string -> string) (config : Config) (uid : Uid)
  (email : string) (request : Request) : Prop :=
  let gate := signinUnblock config in
  forall log,
    outcome (isSigninUnblockEnabledForUser sha1_hex config uid email request
               log)
    = if negb (SigninUnblock.enabled gate) then Normal false
      else if Spec.matches (SigninUnblock.forcedEmailAddresses gate) email
      then Normal true
      else if Spec.matches (SigninUnblock.allowedEmailAddresses gate) email
      then Normal true
      else if negb (Spec.supported (SigninUnblock.supportedClients gate)
                      (request_context request))
      then Normal false
      else outcome (isSampledUser sha1_hex (SigninUnblock.sampleRate gate)
                      uid "signinUnblock" log).

(** ** Definitions for the further properties *)

(** The call log a computation leaves behind. *)
Definition call_log {A} (r : Completion A * list CryptoCall)
  : list CryptoCall :=
  snd r.

(** Replacing the supported clients of a feature. *)
Definition set_confirmation_clients (clients : list string) (c : Config)
  : Config :=
  {| lastAccessTimeUpdates := lastAccessTimeUpdates c;
     signinConfirmation :=
       {| SigninConfirmation.enabled :=
            SigninConfirmation.enabled (signinConfirmation c);
          SigninConfirmation.sample_rate :=
            SigninConfirmation.sample_rate (signinConfirmation c);
          SigninConfirmation.forcedEmailAddresses :=
            SigninConfirmation.forcedEmailAddresses (signinConfirmation c);
          SigninConfirmation.supportedClients := clients |};
     signinUnblock := signinUnblock c;
     securityHistory := securityHistory c |}.

Definition set_unblock_clients (clients : list string) (c : Config)
  : Config :=
  {| lastAccessTimeUpdates := lastAccessTimeUpdates c;
     signinConfirmation := signinConfirmation c;
     signinUnblock :=
       {| SigninUnblock.enabled := SigninUnblock.enabled (signinUnblock c);
          SigninUnblock.sampleRate :=
            SigninUnblock.sampleRate (signinUnblock c);
          SigninUnblock.forcedEmailAddresses :=
            SigninUnblock.forcedEmailAddresses (signinUnblock c);
          SigninUnblock.allowedEmailAddresses :=
            SigninUnblock.allowedEmailAddresses (signinUnblock c);
          SigninUnblock.supportedClients := clients |};
     securityHistory := securityHistory c |}.

(** * The assertions of the unit tests, replayed on the embedding *)

Module UnitTests.
Import Fixture.

Example constants :
  HASH_LENGTH (stub all_0) = 40
  /\ MAX_SAFE_HEX = "1fffffffffffff"
  /\ MAX_SAFE_HEX_LENGTH = 13
  /\ COHORT_DIVISOR = Num.of_Z 4503599627370495.
Proof. repeat split. Qed.

Example isSampledUser_rate_1 :
  isSampledUser (stub all_f) Num.one uid_ff "foo" [] = (Normal true, []).
Proof. reflexivity. Qed.

Example isSampledUser_rate_0 :
  isSampledUser (stub all_0) Num.zero uid_ff "foo" [] = (Normal false, []).
Proof. reflexivity. Qed.

Example isSampledUser_rate_above :
  isSampledUser (stub cohort_04) (rate 5) uid_ff "foo" []
  = (Normal true, hash_calls (Str.fill_join 64 "f") "foo").
Proof. vm_compute. reflexivity. Qed.

Example isSampledUser_rate_level :
  isSampledUser (stub cohort_04) (rate 4) uid_ff "bar" []
  = (Normal false, hash_calls (Str.fill_join 64 "f") "bar").
Proof. vm_compute. reflexivity. Qed.

Example isSampledUser_rate_below :
  isSampledUser (stub cohort_04) (rate 3) uid_ff "foo" []
  = (Normal false, hash_calls (Str.fill_join 64 "f") "foo").
Proof. vm_compute. reflexivity. Qed.

Example isSampledUser_string_uid :
  isSampledUser (stub cohort_02) (rate 3) uid_77 "wibble" []
  = (Normal true, hash_calls (Str.fill_join 64 "7") "wibble").
Proof. vm_compute. reflexivity. Qed.

Example isLastAccessTimeEnabledForUser_tests :
  let run c :=
    returns (isLastAccessTimeEnabledForUser (stub cohort_02) c
               (UidString "foo") "bar@mozilla.com") in
  run (with_lau (lau true 0 (Some mozilla_com)) base) = Normal true
  /\ run (with_lau (lau true 0 (Some mozilla_org)) base) = Normal false
  /\ run (with_lau (lau true 3 (Some mozilla_org)) base) = Normal true
  /\ run (with_lau (lau true 2 (Some mozilla_org)) base) = Normal false
  /\ run (with_lau (lau false 3 (Some mozilla_com)) base) = Normal false.
Proof. vm_compute. repeat split. Qed.

Example isSigninConfirmationEnabledForUser_tests :
  let run c r :=
    returns (isSigninConfirmationEnabledForUser (stub cohort_02) c
               (UidString "wibble") "blee@mozilla.com" r) in
  run (with_confirmation (confirmation true (rate 3) mozilla_com) base)
    (request true "iframe") = Normal true
  /\ run (with_confirmation (confirmation true (rate 2) mozilla_com) base)
       (request false "iframe") = Normal true
  /\ run (with_confirmation (confirmation true (rate 2) mozilla_org) base)
       (request false "iframe") = Normal false
  /\ run (with_confirmation (confirmation true (rate 3) mozilla_org) base)
       (request false "iframe") = Normal true
  /\ run (with_confirmation (confirmation true (rate 3) mozilla_org) base)
       (request false "") = Normal false
  /\ run (with_confirmation (confirmation false (rate 3) mozilla_org) base)
       (request false "iframe") = Normal false.
Proof. vm_compute. repeat split. Qed.

Example isSigninUnblockEnabledForUser_tests :
  let run c r :=
    returns (isSigninUnblockEnabledForUser (stub cohort_02) c
               (UidString "wibble") "blee@mozilla.com" r) in
  run (with_unblock (unblock true 2 None (Some notmozilla_com)) base)
    (request false "iframe") = Normal false
  /\ run (with_unblock (unblock true 2 (Some anything) (Some notmozilla_com))
            base)
       (request false "iframe") = Normal true
  /\ run (with_unblock (unblock true 2 (Some nothing) (Some mozilla_com))
            base)
       (request false "iframe") = Normal true
  /\ run (with_unblock (unblock true 3 (Some nothing) (Some notmozilla_com))
            base)
       (request false "iframe") = Normal true
  /\ run (with_unblock (unblock true 3 (Some nothing) (Some notmozilla_com))
            base)
       (request false "") = Normal false
  /\ run (with_unblock (unblock false 3 (Some nothing) (Some notmozilla_com))
            base)
       (request false "iframe") = Normal false.
Proof. vm_compute. repeat split. Qed.

Example canBypassSiginConfirmation_tests :
  let run c email verified recency :=
    returns (canBypassSiginConfirmation c email verified recency) in
  run (with_history (history true (Some true)) base)
    "test@notforce.com" true "day" = Normal (VBool true)
  /\ run (with_history (history true (Some false)) base)
       "test@notforce.com" true "day" = Normal (VBool false)
  /\ run (with_history (history true (Some true)) base)
       "test@notforce.com" true "week" = Normal (VBool false)
  /\ run (with_history (history false (Some true)) base)
       "test@notforce.com" true "day" = Normal (VBool false)
  /\ run (with_confirmation (confirmation true Num.one force_com)
            (with_history (history true (Some true)) base))
       "test@force.com" true "day" = Normal (VBool false).
Proof. vm_compute. repeat split. Qed.

End UnitTests.

(** * The sampler *)

Lemma app_calls (log : list CryptoCall) (a b c d : CryptoCall) :
  ((((log ++ [a]) ++ [b]) ++ [c]) ++ [d])%list = (log ++ [a; b; c; d])%list.
Proof. now rewrite <- !app_assoc. Qed.

(** Off the two fast paths the sampler computes one digest and compares
    its cohort value with the rate. *)
Lemma isSampledUser_general sha1_hex sampleRate uid key log :
  Num.strict_eq sampleRate Num.one = false ->
  Num.strict_eq sampleRate Num.zero = false ->
  isSampledUser sha1_hex sampleRate uid key log
  = (Normal (Num.ltb (cohort_of sha1_hex (sha1_hex (uid_text uid ++ key)))
               sampleRate),
     (log ++ hash_calls (uid_text uid) key)%list).
Proof.
  intros H1 H0. unfold isSampledUser. rewrite H1, H0.
  unfold hash, bind, call, ret, hash_calls. now rewrite app_calls.
Qed.

(** The sampler always returns, and only ever appends to the call log. *)
Lemma isSampledUser_returns sha1_hex sampleRate uid key log :
  exists b calls,
    isSampledUser sha1_hex sampleRate uid key log
    = (Normal b, (log ++ calls)%list).
Proof.
  destruct (Num.strict_eq sampleRate Num.one) eqn:H1.
  - exists true, []. unfold isSampledUser. rewrite H1, app_nil_r. reflexivity.
  - destruct (Num.strict_eq sampleRate Num.zero) eqn:H0.
    + exists false, []. unfold isSampledUser.
      rewrite H1, H0, app_nil_r. reflexivity.
    + eexists _, _. now apply isSampledUser_general.
Qed.

(** C3: with a sample rate of 1 the sampler returns true and with a sample
    rate of 0 it returns false, for every user id and feature key, and in
    both cases the call log is left as it was: [crypto] is not called. *)
Theorem isSampledUser_fast_paths sha1_hex uid key log :
  isSampledUser sha1_hex Num.one uid key log = (Normal true, log)
  /\ isSampledUser sha1_hex Num.zero uid key log = (Normal false, log).
Proof. split; reflexivity. Qed.

(** ** Hexadecimal text *)

Lemma all_chars_app p s t :
  all_chars p (s ++ t) = all_chars p s && all_chars p t.
Proof.
  induction s as [|c s IH]; simpl; [reflexivity|].
  now rewrite IH, andb_assoc.
Qed.

Lemma length_app s t :
  String.length (s ++ t) = (String.length s + String.length t)%nat.
Proof. induction s as [|c s IH]; simpl; [reflexivity|now rewrite IH]. Qed.

Lemma byte_hex_lower b :
  all_chars lower_hex (Buffer.byte_hex b) = true
  /\ String.length (Buffer.byte_hex b) = 2%nat.
Proof. destruct b; split; reflexivity. Qed.

Lemma toString_hex_lower buf :
  all_chars lower_hex (Buffer.toString_hex buf) = true
  /\ String.length (Buffer.toString_hex buf) = (2 * List.length buf)%nat.
Proof.
  induction buf as [|b buf [IHc IHl]]; [split; reflexivity|].
  destruct (byte_hex_lower b) as [Hc Hl].
  cbn [Buffer.toString_hex List.length]. rewrite all_chars_app, length_app.
  rewrite Hc, IHc, Hl, IHl. split; [reflexivity|lia].
Qed.

(** C10: for a user id given as a buffer the sampler hashes the text
    [buf.toString('hex')]: off the fast paths its [crypto] calls are
    [createHash('sha1')], [update] of that text, [update] of the key and
    [digest('hex')], and the cohort is that of the digest of the text
    followed by the key.  The same holds for the user id given as that
    text, so both get the same decision and the same calls, for every
    sample rate and feature key; the text is two lowercase hexadecimal
    digits per byte. *)
Theorem isSampledUser_buffer_as_hex sha1_hex sampleRate buf key log :
  let text := Buffer.toString_hex buf in
  let run_on_text :=
    if Num.strict_eq sampleRate Num.one then (Normal true, log)
    else if Num.strict_eq sampleRate Num.zero then (Normal false, log)
    else
      (Normal (Num.ltb (cohort_of sha1_hex (sha1_hex (text ++ key)))
                 sampleRate),
       (log ++ [CreateHash "sha1"; Update text; Update key; Digest "hex"])
         %list) in
  isSampledUser sha1_hex sampleRate (UidBuffer buf) key log = run_on_text
  /\ isSampledUser sha1_hex sampleRate (UidString text) key log = run_on_text
  /\ isSampledUser sha1_hex sampleRate (UidBuffer buf) key log
     = isSampledUser sha1_hex sampleRate (UidString text) key log
  /\ all_chars lower_hex text = true
  /\ String.length text = (2 * List.length buf)%nat.
Proof.
  intros text run_on_text.
  assert (Hrun : forall uid,
            uid_text uid = text ->
            isSampledUser sha1_hex sampleRate uid key log = run_on_text).
  { intros uid Htext. subst run_on_text.
    destruct (Num.strict_eq sampleRate Num.one) eqn:Hone;
      [unfold isSampledUser; now rewrite Hone|].
    destruct (Num.strict_eq sampleRate Num.zero) eqn:Hzero;
      [unfold isSampledUser; now rewrite Hone, Hzero|].
    rewrite isSampledUser_general by assumption.
    now rewrite Htext. }
  pose proof (Hrun (UidBuffer buf) eq_refl) as Hbuffer.
  pose proof (Hrun (UidString text) eq_refl) as Htext.
  split; [exact Hbuffer|]. split; [exact Htext|].
  split; [now rewrite Hbuffer, Htext|apply toString_hex_lower].
Qed.

(** * The gates *)

Lemma indexOf_from_supported l x i :
  0 <= i -> (indexOf_from l x i =? -1) = negb (Spec.supported l x).
Proof.
  revert i. induction l as [|y l IH]; intros i Hi; simpl.
  - now destruct x.
  - destruct x as [s|]; simpl.
    + rewrite (String.eqb_sym s y). destruct (String.eqb y s); simpl.
      * apply Z.eqb_neq. lia.
      * apply (IH (i + 1)). lia.
    + apply (IH (i + 1)). lia.
Qed.

(** [indexOf] finds the client context exactly when it is in the set. *)
Lemma indexOf_supported l x :
  (indexOf l x =? -1) = negb (Spec.supported l x).
Proof. apply indexOf_from_supported. lia. Qed.

(** C4: [isSigninConfirmationEnabledForUser] follows the overrides of the
    specification in their order (disabled: false; suspicious: true; forced
    email: true; unsupported client context: false); an override decides
    without any call to the sampler, and when none applies the result is
    the sampler's, with the feature's rate and the key
    ["signinConfirmation"]. *)
Theorem isSigninConfirmationEnabledForUser_precedence
  sha1_hex config uid email request log :
  let gate := signinConfirmation config in
  isSigninConfirmationEnabledForUser sha1_hex config uid email request log
  = match
      Spec.signinConfirmation_override
        (SigninConfirmation.enabled gate)
        (SigninConfirmation.forcedEmailAddresses gate)
        (SigninConfirmation.supportedClients gate)
        email (isSuspiciousRequest (app request)) (request_context request)
    with
    | Some decided => (Normal decided, log)
    | None =>
        isSampledUser sha1_hex (SigninConfirmation.sample_rate gate) uid
          "signinConfirmation" log
    end.
Proof.
  intro gate. unfold isSigninConfirmationEnabledForUser,
    Spec.signinConfirmation_override. fold gate.
  rewrite indexOf_supported.
  destruct (SigninConfirmation.enabled gate); [|reflexivity].
  destruct (isSuspiciousRequest (app request)); [reflexivity|].
  destruct (test _ email); [reflexivity|].
  now destruct (Spec.supported _ _).
Qed.

(** Without an allowed-email pattern an enabled sign-in unblock neither
    returns false for an unsupported client nor asks the sampler for a
    supported one: it throws. *)
Lemma unblock_without_allowed_pattern_throws :
  let sha1_hex := Fixture.stub Fixture.cohort_02 in
  let config :=
    Fixture.with_unblock (Fixture.unblock true 3 None None) Fixture.base in
  outcome (isSigninUnblockEnabledForUser sha1_hex config (UidString "wibble")
             "blee@mozilla.com" (Fixture.request false "iframe") [])
  = Throw TypeError
  /\ outcome (isSigninUnblockEnabledForUser sha1_hex config
                (UidString "wibble") "blee@mozilla.com"
                (Fixture.request false "") [])
     = Throw TypeError
  /\ ~ unblock_precedence_for_every_configuration sha1_hex config
         (UidString "wibble") "blee@mozilla.com"
         (Fixture.request false "iframe")
  /\ ~ unblock_precedence_for_every_configuration sha1_hex config
         (UidString "wibble") "blee@mozilla.com" (Fixture.request false "").
Proof.
  intros sha1_hex config. repeat split;
    intro H; specialize (H []); discriminate H.
Qed.

(** C5: with the allowed-email pattern configured,
    [isSigninUnblockEnabledForUser] follows the overrides of the
    specification in their order (disabled: false; a configured forced
    pattern matching: true; allowed email: true; unsupported client
    context: false), none of which calls the sampler; when none applies the
    result is the sampler's, with the feature's rate and the key
    ["signinUnblock"]. *)
Theorem isSigninUnblockEnabledForUser_precedence
  sha1_hex config uid email request log allowed :
  let gate := signinUnblock config in
  SigninUnblock.allowedEmailAddresses gate = Some allowed ->
  isSigninUnblockEnabledForUser sha1_hex config uid email request log
  = match
      Spec.signinUnblock_override
        (SigninUnblock.enabled gate)
        (SigninUnblock.forcedEmailAddresses gate)
        allowed
        (SigninUnblock.supportedClients gate)
        email (request_context request)
    with
    | Some decided => (Normal decided, log)
    | None =>
        isSampledUser sha1_hex (SigninUnblock.sampleRate gate) uid
          "signinUnblock" log
    end.
Proof.
  intros gate Hallowed. unfold isSigninUnblockEnabledForUser,
    Spec.signinUnblock_override, Spec.matches. fold gate.
  rewrite Hallowed, indexOf_supported.
  destruct (SigninUnblock.enabled gate); [|reflexivity].
  destruct (SigninUnblock.forcedEmailAddresses gate) as [forced|];
    unfold bind, ret, test_method; cbn [negb].
  - destruct (test forced email); [reflexivity|].
    destruct (test allowed email); [reflexivity|].
    now destruct (Spec.supported _ _).
  - destruct (test allowed email); [reflexivity|].
    now destruct (Spec.supported _ _).
Qed.

Lemma isSigninUnblockEnabledForUser_precedence_witness :
  let config :=
    Fixture.with_unblock
      (Fixture.unblock true 3 (Some Fixture.nothing)
         (Some Fixture.notmozilla_com))
      Fixture.base in
  SigninUnblock.allowedEmailAddresses (signinUnblock config)
  = Some Fixture.notmozilla_com
  /\ isSigninUnblockEnabledForUser (Fixture.stub Fixture.cohort_02) config
       (UidString "wibble") "blee@mozilla.com"
       (Fixture.request false "iframe") []
     = isSampledUser (Fixture.stub Fixture.cohort_02) (Fixture.rate 3)
         (UidString "wibble") "signinUnblock" [].
Proof.
  intro config. split; [reflexivity|].
  exact (isSigninUnblockEnabledForUser_precedence
           (Fixture.stub Fixture.cohort_02) config (UidString "wibble")
           "blee@mozilla.com" (Fixture.request false "iframe") []
           Fixture.notmozilla_com eq_refl).
Defined.

(** The outcome of the sampler does not depend on the call log it starts
    from. *)
Lemma isSampledUser_outcome sha1_hex sampleRate uid key log :
  outcome (isSampledUser sha1_hex sampleRate uid key log)
  = Normal (sampled sha1_hex sampleRate uid key).
Proof.
  unfold sampled, outcome, isSampledUser.
  destruct (Num.strict_eq sampleRate Num.one); [reflexivity|].
  destruct (Num.strict_eq sampleRate Num.zero); reflexivity.
Qed.

(** C9: [isLastAccessTimeEnabledForUser] returns false when the feature is
    disabled; it returns true exactly when the feature is enabled and the
    sampler (with the feature's rate and the key ["lastAccessTimeUpdates"])
    says sampled or the email matches the enabled-email pattern; with the
    pattern configured its result is the disjunction of the two. *)
Theorem isLastAccessTimeEnabledForUser_or sha1_hex config uid email log :
  let gate := lastAccessTimeUpdates config in
  let run := isLastAccessTimeEnabledForUser sha1_hex config uid email log in
  let sampler :=
    isSampledUser sha1_hex (LastAccessTimeUpdates.sampleRate gate) uid
      "lastAccessTimeUpdates" log in
  (LastAccessTimeUpdates.enabled gate = false -> run = (Normal false, log))
  /\ (outcome run = Normal true
      <-> LastAccessTimeUpdates.enabled gate = true
          /\ (outcome sampler = Normal true
              \/ Spec.matches (LastAccessTimeUpdates.enabledEmailAddresses gate)
                   email = true))
  /\ (forall re,
        LastAccessTimeUpdates.enabledEmailAddresses gate = Some re ->
        outcome run
        = Normal (LastAccessTimeUpdates.enabled gate
                  && (sampled sha1_hex (LastAccessTimeUpdates.sampleRate gate)
                        uid "lastAccessTimeUpdates"
                      || test re email))).
Proof.
  intros gate run sampler. subst run sampler.
  unfold isLastAccessTimeEnabledForUser, bind. cbv zeta. fold gate.
  pose proof (isSampledUser_outcome sha1_hex
                (LastAccessTimeUpdates.sampleRate gate) uid
                "lastAccessTimeUpdates" log) as Hs.
  destruct (isSampledUser_returns sha1_hex
              (LastAccessTimeUpdates.sampleRate gate) uid
              "lastAccessTimeUpdates" log) as (b & calls & E).
  rewrite E in Hs. unfold outcome in *. cbn [fst] in Hs.
  injection Hs as Hs. rewrite <- Hs. clear Hs.
  destruct (LastAccessTimeUpdates.enabled gate); cbv beta; rewrite ?E.
  - split; [discriminate|]. split.
    + destruct b; cbn [fst ret].
      * split; [intros _; split; [reflexivity|now left]|reflexivity].
      * destruct (LastAccessTimeUpdates.enabledEmailAddresses gate) as [re|];
          unfold test_method, ret, throw, Spec.matches; cbn [fst].
        -- split.
           ++ intros H. injection H as H. split; [reflexivity|now right].
           ++ intros [_ [H|H]]; [discriminate|now rewrite H].
        -- split; [discriminate|].
           intros [_ [H|H]]; discriminate.
    + intros re Hre. rewrite Hre. now destruct b.
  - split; [reflexivity|]. split.
    + split; [discriminate|]. intros [H _]. discriminate.
    + reflexivity.
Qed.

(** X16: [canBypassSiginConfirmation] returns true exactly when it is not
    the case that sign-in confirmation is enabled and the email matches its
    forced pattern, and security history is enabled, its IP profiling is
    enabled, [verified] is true and [recency] is ["day"]; from a call that
    returns true, setting one of the two flags or [verified] to false, or
    [recency] to another bucket, makes the result false. *)
Theorem canBypassSiginConfirmation_iff config email verified recency log :
  let confirmation := signinConfirmation config in
  let history := securityHistory config in
  (canBypassSiginConfirmation config email verified recency log
   = (Normal (VBool true), log)
   <-> ~ (SigninConfirmation.enabled confirmation = true
          /\ test (SigninConfirmation.forcedEmailAddresses confirmation) email
             = true)
       /\ SecurityHistory.enabled history = true
       /\ (exists p, SecurityHistory.ipProfiling history = Some p
                     /\ IpProfiling.enabled p = true)
       /\ verified = true
       /\ recency = "day")
  /\ (canBypassSiginConfirmation config email true "day" log
      = (Normal (VBool true), log) ->
      canBypassSiginConfirmation (set_history_enabled false config) email
        true "day" log = (Normal (VBool false), log)
      /\ canBypassSiginConfirmation (set_profiling_enabled false config) email
           true "day" log = (Normal (VBool false), log)
      /\ canBypassSiginConfirmation config email false "day" log
         = (Normal (VBool false), log)
      /\ forall other,
           other <> "day" ->
           canBypassSiginConfirmation config email true other log
           = (Normal (VBool false), log)).
Proof.
  intros confirmation history.
  unfold canBypassSiginConfirmation, set_history_enabled,
    set_profiling_enabled; cbn [signinConfirmation securityHistory
    SecurityHistory.enabled SecurityHistory.ipProfiling IpProfiling.enabled].
  fold confirmation. fold history. unfold ret.
  destruct (SigninConfirmation.enabled confirmation);
    destruct (test (SigninConfirmation.forcedEmailAddresses confirmation)
                email);
    destruct (SecurityHistory.enabled history);
    destruct (SecurityHistory.ipProfiling history) as [[[|]]|];
    cbn [andb IpProfiling.enabled].
  all: split;
    [ destruct verified; destruct (String.eqb_spec recency "day");
      (split;
       [ intro H; try discriminate H;
         repeat split; try reflexivity; try assumption;
         try (intros [H1 H2]; discriminate);
         try (eexists; split; reflexivity)
       | intros (Hf & Hh & (p & Hp & He) & Hv & Hr);
         try discriminate; try congruence;
         try (exfalso; apply Hf; split; reflexivity);
         try (injection Hp as Hp; subst p; discriminate He) ])
    | intro H; try discriminate H;
      repeat split; try reflexivity;
      intros other Hother; apply String.eqb_neq in Hother;
      now rewrite Hother ].
Qed.

(** Where the [ipProfiling] entry is absent the result is [undefined]
    rather than [false]: the [&&] chain hands back the absent entry. *)
Lemma canBypassSiginConfirmation_undefined config email verified recency log :
  (SigninConfirmation.enabled (signinConfirmation config)
   && test (SigninConfirmation.forcedEmailAddresses
              (signinConfirmation config)) email)%bool = false ->
  SecurityHistory.enabled (securityHistory config) = true ->
  SecurityHistory.ipProfiling (securityHistory config) = None ->
  canBypassSiginConfirmation config email verified recency log
  = (Normal VUndefined, log).
Proof.
  intros Hforced Hhistory Hprofiling. unfold canBypassSiginConfirmation.
  now rewrite Hforced, Hhistory, Hprofiling.
Qed.

(** C6: with security history enabled and no [ipProfiling] entry (the
    entry the code tests for before reading its flag), IP profiling is not
    enabled, yet [canBypassSiginConfirmation] does not return false: it
    returns [undefined], although it is documented to return a boolean. *)
Theorem canBypassSiginConfirmation_returns_undefined :
  let config := Fixture.with_history (Fixture.history true None) Fixture.base in
  SecurityHistory.enabled (securityHistory config) = true
  /\ SecurityHistory.ipProfiling (securityHistory config) = None
  /\ canBypassSiginConfirmation config "test@notforce.com" true "day" []
     = (Normal VUndefined, [])
  /\ canBypassSiginConfirmation config "test@notforce.com" true "day" []
     <> (Normal (VBool false), []).
Proof. intro config. repeat split. discriminate. Qed.

(** With sign-in confirmation disabled, an email that matches its forced
    pattern bypasses confirmation like any other. *)
Lemma forced_email_bypasses_when_disabled :
  let config :=
    Fixture.with_confirmation
      (Fixture.confirmation false Num.one Fixture.force_com)
      (Fixture.with_history (Fixture.history true (Some true)) Fixture.base) in
  test (SigninConfirmation.forcedEmailAddresses (signinConfirmation config))
    "test@force.com" = true
  /\ canBypassSiginConfirmation config "test@force.com" true "day" []
     = (Normal (VBool true), [])
  /\ ~ forced_email_never_bypasses config "test@force.com".
Proof.
  intro config. split; [reflexivity|]. split; [reflexivity|].
  intro H. specialize (H eq_refl true "day" []). discriminate H.
Qed.

(** C7: while sign-in confirmation is enabled, an email that matches its
    forced pattern cannot bypass confirmation, whatever [verified],
    [recency] and the security-history entries are. *)
Theorem forced_email_blocks_bypass config email verified recency log :
  SigninConfirmation.enabled (signinConfirmation config) = true ->
  test (SigninConfirmation.forcedEmailAddresses (signinConfirmation config))
    email = true ->
  canBypassSiginConfirmation config email verified recency log
  = (Normal (VBool false), log).
Proof.
  intros Henabled Hforced. unfold canBypassSiginConfirmation.
  now rewrite Henabled, Hforced.
Qed.

Lemma forced_email_blocks_bypass_witness :
  let config :=
    Fixture.with_confirmation
      (Fixture.confirmation true Num.one Fixture.force_com)
      (Fixture.with_history (Fixture.history true (Some true)) Fixture.base) in
  (SigninConfirmation.enabled (signinConfirmation config) = true
   /\ test (SigninConfirmation.forcedEmailAddresses
              (signinConfirmation config)) "test@force.com" = true)
  /\ canBypassSiginConfirmation config "test@force.com" true "day" []
     = (Normal (VBool false), []).
Proof.
  intro config. split; [split; reflexivity|].
  exact (forced_email_blocks_bypass config "test@force.com" true "day" []
           eq_refl eq_refl).
Defined.

(** Without an enabled-email pattern [isLastAccessTimeEnabledForUser]
    throws for a user who is not sampled, and without an allowed-email
    pattern [isSigninUnblockEnabledForUser] throws for an email that is not
    forced. *)
Lemma absent_patterns_throw :
  outcome
    (isLastAccessTimeEnabledForUser (Fixture.stub Fixture.cohort_02)
       (Fixture.with_lau (Fixture.lau true 0 None) Fixture.base)
       (UidString "foo") "bar@mozilla.com" [])
  = Throw TypeError
  /\ outcome
       (isSigninUnblockEnabledForUser (Fixture.stub Fixture.cohort_02)
          (Fixture.with_unblock (Fixture.unblock true 3 None None)
             Fixture.base)
          (UidString "wibble") "blee@mozilla.com"
          (Fixture.request false "iframe") [])
     = Throw TypeError
  /\ ~ absent_patterns_tolerated (Fixture.stub Fixture.cohort_02).
Proof.
  split; [reflexivity|]. split; [reflexivity|].
  intro H.
  destruct (H (Fixture.with_lau (Fixture.lau true 0 None) Fixture.base)
              (UidString "foo") "bar@mozilla.com"
              (Fixture.request false "iframe") []) as (_ & _ & Hlau).
  destruct (Hlau eq_refl) as [b Hb]. discriminate Hb.
Qed.

(** C8: when the forced-email pattern of sign-in unblock is absent (and
    the allowed-email pattern, which the code requires, is configured),
    [isSigninUnblockEnabledForUser] returns a boolean without error, the
    one it returns with a forced pattern that matches no email. *)
Theorem absent_forced_pattern_tolerated
  sha1_hex config uid email request log allowed :
  SigninUnblock.forcedEmailAddresses (signinUnblock config) = None ->
  SigninUnblock.allowedEmailAddresses (signinUnblock config) = Some allowed ->
  (exists b,
     outcome (isSigninUnblockEnabledForUser sha1_hex config uid email request
                log) = Normal b)
  /\ isSigninUnblockEnabledForUser sha1_hex config uid email request log
     = isSigninUnblockEnabledForUser sha1_hex
         (set_unblock_forced (Some never) config) uid email request log.
Proof.
  intros Hforced Hallowed.
  unfold isSigninUnblockEnabledForUser, set_unblock_forced; cbv zeta;
    cbn [signinUnblock SigninUnblock.enabled SigninUnblock.sampleRate
         SigninUnblock.forcedEmailAddresses SigninUnblock.allowedEmailAddresses
         SigninUnblock.supportedClients never test].
  rewrite Hforced, Hallowed. split; [|reflexivity].
  destruct (SigninUnblock.enabled (signinUnblock config)); cbn [negb];
    [|now exists false].
  unfold bind, ret, test_method.
  destruct (test allowed email); [now exists true|].
  destruct (indexOf _ _ =? -1); [now exists false|].
  destruct (isSampledUser_returns sha1_hex
              (SigninUnblock.sampleRate (signinUnblock config)) uid
              "signinUnblock" log) as (b & calls & E).
  exists b. cbv [ret]; cbv beta iota. now rewrite E.
Qed.

Lemma absent_forced_pattern_tolerated_witness :
  let config :=
    Fixture.with_unblock
      (Fixture.unblock true 2 None (Some Fixture.notmozilla_com))
      Fixture.base in
  (SigninUnblock.forcedEmailAddresses (signinUnblock config) = None
   /\ SigninUnblock.allowedEmailAddresses (signinUnblock config)
      = Some Fixture.notmozilla_com)
  /\ (exists b,
        outcome
          (isSigninUnblockEnabledForUser (Fixture.stub Fixture.cohort_02)
             config (UidString "wibble") "blee@mozilla.com"
             (Fixture.request false "iframe") []) = Normal b).
Proof.
  intro config. split; [split; reflexivity|].
  exact (proj1 (absent_forced_pattern_tolerated
                  (Fixture.stub Fixture.cohort_02) config (UidString "wibble")
                  "blee@mozilla.com" (Fixture.request false "iframe") []
                  Fixture.notmozilla_com eq_refl eq_refl)).
Defined.

(** * Cohort values *)

(** With a rate of 1 the fast path answers true even for the digest whose
    cohort value is 1 (the unit tests assert this very case). *)
Lemma equal_cohort_sampled_at_rate_one :
  Num.strict_eq
    (cohort_of (Fixture.stub Fixture.all_f)
       (Fixture.stub Fixture.all_f (uid_text Fixture.uid_ff ++ "foo")))
    Num.one = true
  /\ isSampledUser (Fixture.stub Fixture.all_f) Num.one Fixture.uid_ff "foo" []
     = (Normal true, [])
  /\ ~ equal_cohort_not_sampled (Fixture.stub Fixture.all_f) Num.one
         Fixture.uid_ff "foo".
Proof.
  split; [reflexivity|]. split; [reflexivity|].
  intro H. specialize (H eq_refl eq_refl eq_refl []). discriminate H.
Qed.

Lemma SFltb_of_eqb (x y : spec_float) : SFeqb x y = true -> SFltb x y = false.
Proof.
  unfold SFeqb, SFltb. now destruct (SFcompare x y) as [[| |]|].
Qed.

(** C2: for every sample rate other than 1 (so for every rate in [0,1)),
    a user whose cohort value is exactly equal to the rate is not sampled:
    the comparison is strict. *)
Theorem equal_cohort_is_not_sampled sha1_hex sampleRate uid key log :
  Num.strict_eq sampleRate Num.one = false ->
  Num.strict_eq (cohort_of sha1_hex (sha1_hex (uid_text uid ++ key)))
    sampleRate = true ->
  outcome (isSampledUser sha1_hex sampleRate uid key log) = Normal false.
Proof.
  intros Hone Heq.
  destruct (Num.strict_eq sampleRate Num.zero) eqn:Hzero.
  - unfold isSampledUser. now rewrite Hone, Hzero.
  - rewrite isSampledUser_general by assumption.
    unfold outcome; cbn [fst]. f_equal. now apply SFltb_of_eqb.
Qed.

Lemma equal_cohort_is_not_sampled_witness :
  let sampleRate :=
    cohort_of (Fixture.stub Fixture.cohort_02) Fixture.cohort_02 in
  (Num.strict_eq sampleRate Num.one = false
   /\ Num.strict_eq
        (cohort_of (Fixture.stub Fixture.cohort_02)
           (Fixture.stub Fixture.cohort_02
              (uid_text Fixture.uid_77 ++ "wibble")))
        sampleRate = true)
  /\ outcome
       (isSampledUser (Fixture.stub Fixture.cohort_02) sampleRate
          Fixture.uid_77 "wibble" []) = Normal false.
Proof.
  intro sampleRate. split; [split; reflexivity|].
  exact (equal_cohort_is_not_sampled (Fixture.stub Fixture.cohort_02)
           sampleRate Fixture.uid_77 "wibble" [] eq_refl eq_refl).
Defined.

(** ** Binary64 arithmetic on 53-bit mantissas *)

Lemma digits2_pos_size p : digits2_pos p = Pos.size p.
Proof. induction p as [p IH|p IH|]; simpl; now rewrite ?IH. Qed.

Lemma digits2_pos_unique p k :
  2 ^ (k - 1) <= Zpos p < 2 ^ k -> Zpos (digits2_pos p) = k.
Proof.
  intros [Hlo Hhi]. rewrite digits2_pos_size.
  assert (Hk : 0 <= k).
  { destruct (Z.lt_ge_cases k 0) as [H|H]; [|exact H].
    rewrite (Z.pow_neg_r 2 k H) in Hhi. lia. }
  pose proof (Pos.size_gt p) as Hgt. pose proof (Pos.size_le p) as Hle.
  apply Pos2Z.pos_lt_pos in Hgt. apply Pos2Z.pos_le_pos in Hle.
  rewrite Pos2Z.inj_pow in Hgt, Hle.
  change (Zpos p~0) with (2 * Zpos p) in Hle.
  set (s := Zpos (Pos.size p)) in *.
  assert (k - 1 < s).
  { apply (Z.pow_lt_mono_r_iff 2); [lia|subst s; lia|].
    eapply Z.le_lt_trans; eassumption. }
  assert (s < k + 1).
  { apply (Z.pow_lt_mono_r_iff 2); [lia|lia|].
    rewrite (Z.pow_add_r 2 k 1), Z.pow_1_r by lia.
    eapply Z.le_lt_trans; [exact Hle|]. lia. }
  lia.
Qed.

Lemma iter_xO p k : Zpos (Pos.iter xO p k) = Zpos p * 2 ^ Zpos k.
Proof.
  induction k as [|k IH] using Pos.peano_ind.
  - simpl. lia.
  - rewrite Pos.iter_succ, Pos2Z.inj_xO, IH, Pos2Z.inj_succ, Z.pow_succ_r
      by lia.
    lia.
Qed.

Lemma Zdigits2_53 m : two52 <= m < two53 -> Zdigits2 m = 53.
Proof.
  intros H. destruct m as [|p|p]; unfold two52 in *; try lia.
  apply (digits2_pos_unique p 53). exact H.
Qed.

Lemma round_nearest_even_range m l :
  m <= round_nearest_even m l <= m + 1.
Proof.
  destruct l as [|[| |]]; simpl; try lia. destruct (Z.even m); lia.
Qed.

Lemma loc_of_shr_record_of_loc m l :
  loc_of_shr_record (shr_record_of_loc m l) = l
  /\ shr_m (shr_record_of_loc m l) = m.
Proof. now destruct l as [|[| |]]. Qed.

(** Rounding a mantissa of 53 bits that stays within 53 bits. *)
Lemma binary_round_aux_53 s m e l :
  two52 <= m -> round_nearest_even m l < two53 -> -1074 <= e <= 971 ->
  exists m',
    binary_round_aux 53 1024 s m e l = S754_finite s m' e
    /\ Zpos m' = round_nearest_even m l.
Proof.
  intros Hm Hr He.
  pose proof (round_nearest_even_range m l) as Hrange.
  assert (Hshift : forall x, two52 <= x < two53 ->
            fexp 53 1024 (Zdigits2 x + e) - e = 0).
  { intros x Hx. rewrite (Zdigits2_53 x Hx). unfold fexp, emin. lia. }
  unfold binary_round_aux, shr_fexp.
  rewrite (Hshift m) by lia. unfold shr at 1.
  destruct (loc_of_shr_record_of_loc m l) as [-> ->].
  rewrite (Hshift (round_nearest_even m l)) by lia. unfold shr.
  destruct (loc_of_shr_record_of_loc (round_nearest_even m l) loc_Exact)
    as [_ ->].
  destruct (round_nearest_even m l) as [|m'|m'] eqn:E;
    [unfold two52 in *; lia| |unfold two52 in *; lia].
  exists m'. split; [|reflexivity].
  replace (e <=? 1024 - 53) with true by (symmetry; apply Z.leb_le; lia).
  reflexivity.
Qed.

(** The number of a positive integer below 2^52: a mantissa of 53 bits. *)
Lemma binary_normalize_pos p :
  Zpos p < two52 ->
  exists mx ex,
    binary_normalize 53 1024 (Zpos p) 0 false = S754_finite false mx ex
    /\ Zpos mx = Zpos p * 2 ^ (- ex)
    /\ -52 <= ex <= -1
    /\ two52 <= Zpos mx < two53.
Proof.
  intros Hp. unfold binary_normalize, binary_round, shl_align.
  set (d := digits2_pos p).
  assert (Hd : 2 ^ (Zpos d - 1) <= Zpos p < 2 ^ Zpos d).
  { subst d. rewrite digits2_pos_size.
    pose proof (Pos.size_gt p) as Hgt. pose proof (Pos.size_le p) as Hle.
    apply Pos2Z.pos_lt_pos in Hgt. apply Pos2Z.pos_le_pos in Hle.
    rewrite Pos2Z.inj_pow in Hgt, Hle.
    change (Zpos p~0) with (2 * Zpos p) in Hle.
    split; [|exact Hgt].
    replace (Zpos (Pos.size p)) with (Zpos (Pos.size p) - 1 + 1) in Hle
      by lia.
    rewrite Z.pow_add_r, Z.pow_1_r in Hle by lia. lia. }
  assert (Hd52 : Zpos d <= 52).
  { destruct (Z.le_gt_cases (Zpos d) 52) as [H|H]; [exact H|].
    assert (2 ^ 52 <= 2 ^ (Zpos d - 1)) by (apply Z.pow_le_mono_r; lia).
    unfold two52 in Hp.
    change (2 ^ 52) with 4503599627370496 in *. lia. }
  replace (fexp 53 1024 (Zpos d + 0) - 0) with (Zpos d - 53)
    by (unfold fexp, emin; lia).
  replace (fexp 53 1024 (Zpos d + 0)) with (Zpos d - 53)
    by (unfold fexp, emin; lia).
  destruct (Zpos d - 53) as [|k|k] eqn:Ek; try lia.
  assert (Hm : Zpos (Pos.iter xO p k) = Zpos p * 2 ^ Zpos k)
    by apply iter_xO.
  assert (Hpow : 2 ^ (Zpos d - 1) * 2 ^ Zpos k = two52).
  { rewrite <- Z.pow_add_r by lia.
    replace (Zpos d - 1 + Zpos k) with 52 by lia. reflexivity. }
  assert (Hpow' : 2 ^ Zpos d * 2 ^ Zpos k = two53).
  { rewrite <- Z.pow_add_r by lia.
    replace (Zpos d + Zpos k) with 53 by lia. reflexivity. }
  assert (Hk : 0 < 2 ^ Zpos k) by (apply Z.pow_pos_nonneg; lia).
  assert (Hrange : two52 <= Zpos (Pos.iter xO p k) < two53).
  { rewrite Hm, <- Hpow, <- Hpow'. split.
    - apply Z.mul_le_mono_nonneg_r; lia.
    - apply Z.mul_lt_mono_pos_r; lia. }
  destruct (binary_round_aux_53 false (Zpos (Pos.iter xO p k)) (Zneg k)
              loc_Exact) as (m' & Hround & Hm'); try (simpl; lia).
  simpl in Hm'. injection Hm' as ->.
  exists (Pos.iter xO p k), (Zneg k). repeat split; try lia; try assumption.
Qed.

(** Dividing a number below the divisor by [0xfffffffffffff]: the
    quotient keeps a mantissa of 53 bits, one binade further down. *)
Lemma SFdiv_by_all_f mx ex :
  two52 <= Zpos mx <= two53 - 4 -> -52 <= ex <= -1 ->
  exists mz,
    SFdiv 53 1024 (S754_finite false mx ex)
      (S754_finite false divisor_mantissa (-1))
    = S754_finite false mz (ex - 52).
Proof.
  intros Hmx Hex. unfold SFdiv, SFdiv_core_binary.
  rewrite (Zdigits2_53 (Zpos mx)) by (unfold two53, two52 in *; lia).
  rewrite (Zdigits2_53 (Zpos divisor_mantissa))
    by (unfold two52, two53, divisor_mantissa; lia).
  replace (Z.min (fexp 53 1024 (53 + ex - (53 + -1))) (ex - -1))
    with (ex - 52) by (unfold fexp, emin; lia).
  replace (ex - -1 - (ex - 52)) with 53 by lia.
  rewrite Z.shiftl_mul_pow2 by lia.
  change (2 ^ 53) with two53.
  pose proof (Z.div_eucl_eq (Zpos mx * two53) (Zpos divisor_mantissa)) as Heq.
  pose proof (Z.mod_pos_bound (Zpos mx * two53) (Zpos divisor_mantissa)) as Hr.
  unfold Z.modulo in Hr.
  destruct (Z.div_eucl (Zpos mx * two53) (Zpos divisor_mantissa)) as [q r].
  specialize (Heq ltac:(discriminate)). specialize (Hr ltac:(reflexivity)).
  assert (Hq : two52 <= q <= two53 - 2).
  { unfold two52, two53, divisor_mantissa in *. nia. }
  set (l := new_location (Zpos divisor_mantissa) r).
  pose proof (round_nearest_even_range q l) as Hrange.
  destruct (binary_round_aux_53 (xorb false false) q (ex - 52) l)
    as (mz & Hround & _); try (unfold two52, two53 in *; lia).
  exists mz. exact Hround.
Qed.

Lemma of_Z_all_f :
  Num.of_Z 0xfffffffffffff = S754_finite false divisor_mantissa (-1).
Proof. reflexivity. Qed.

(** The quotient of an integer of [0 .. 0xfffffffffffff] by
    [0xfffffffffffff]: 0 for 0, 1 for the divisor itself, and otherwise a
    positive number with an exponent below that of 1. *)
Lemma div_by_all_f n :
  0 <= n <= 0xfffffffffffff ->
  let q := Num.div (Num.of_Z n) (Num.of_Z 0xfffffffffffff) in
  (n = 0 /\ q = S754_zero false)
  \/ (n = 0xfffffffffffff /\ q = Num.one)
  \/ (0 < n < 0xfffffffffffff
      /\ exists mz ez, q = S754_finite false mz ez /\ ez <= -53).
Proof.
  intros Hn q.
  destruct (Z.eq_dec n 0) as [->|Hn0]; [left; split; reflexivity|].
  destruct (Z.eq_dec n 0xfffffffffffff) as [->|HnD];
    [right; left; split; reflexivity|].
  right; right. split; [lia|].
  destruct n as [|p|p]; try lia.
  destruct (binary_normalize_pos p) as (mx & ex & Hof & Hmx & Hex & Hrange);
    [unfold two52; lia|].
  assert (Hmx4 : Zpos mx <= two53 - 4).
  { destruct (Z.eq_dec ex (-1)) as [->|Hex1].
    - change (2 ^ (- -1)) with 2 in Hmx. unfold two53. lia.
    - replace (- ex) with (2 + (- ex - 2)) in Hmx by lia.
      rewrite Z.pow_add_r in Hmx by lia. change (2 ^ 2) with 4 in Hmx.
      unfold two53 in *. lia. }
  destruct (SFdiv_by_all_f mx ex) as [mz Hdiv]; [lia|lia|].
  exists mz, (ex - 52). split; [|lia].
  subst q. unfold Num.div, Num.of_Z at 1, Num.prec, Num.emax.
  rewrite Hof, of_Z_all_f. exact Hdiv.
Qed.

Lemma ltb_one_finite mz ez :
  ez <= -53 -> Num.ltb (S754_finite false mz ez) Num.one = true.
Proof.
  intros He. change Num.one with (S754_finite false 4503599627370496 (-52)).
  unfold Num.ltb, SFltb, SFcompare.
  now replace (ez ?= -52) with Lt by (symmetry; apply Z.compare_lt_iff; lia).
Qed.

(** Such a quotient lies in [[0,1]], and is below 1 unless the integer is
    the divisor itself. *)
Lemma div_by_all_f_range n :
  0 <= n <= 0xfffffffffffff ->
  let q := Num.div (Num.of_Z n) (Num.of_Z 0xfffffffffffff) in
  Spec.in_unit_closed q
  /\ (Num.ltb q Num.one = false <-> n = 0xfffffffffffff).
Proof.
  intros Hn q.
  destruct (div_by_all_f n Hn)
    as [[-> Hq]|[[-> Hq]|[Hlt (mz & ez & Hq & He)]]];
    fold q in Hq; rewrite Hq.
  - repeat split; try reflexivity; discriminate.
  - repeat split; reflexivity.
  - pose proof (ltb_one_finite mz ez He) as Hlt1.
    split; [split|split].
    + reflexivity.
    + unfold Num.leb, Num.ltb, SFleb, SFltb in *.
      destruct (SFcompare (S754_finite false mz ez) Num.one) as [[| |]|];
        first [reflexivity|discriminate Hlt1].
    + rewrite Hlt1. discriminate.
    + lia.
Qed.

(** ** Hexadecimal windows *)

Lemma lower_hex_cases c : lower_hex c = true -> In c lower_hex_digits.
Proof.
  destruct c as [[] [] [] [] [] [] [] []]; intros H;
    try discriminate H; simpl; tauto.
Qed.

Lemma hex_digit_lower c :
  lower_hex c = true ->
  exists d, Str.hex_digit c = Some d /\ 0 <= d <= 15
            /\ (d = 15 -> c = "f"%char).
Proof.
  intros H. apply lower_hex_cases in H. simpl in H.
  repeat (destruct H as [H|H];
          [subst c; eexists; split; [cbv; reflexivity|];
           split; [lia|]; intros E; first [reflexivity|discriminate E]|]).
  destruct H.
Qed.

Lemma parse_hex_digits_all s a :
  all_chars lower_hex s = true ->
  Str.parse_hex_digits s (Some a)
  = Some (a * 16 ^ Z.of_nat (String.length s) + Spec.unsigned_hex s).
Proof.
  revert a. induction s as [|c s IH]; intros a H.
  - simpl. f_equal. lia.
  - cbn [all_chars] in H. apply andb_prop in H as [Hc Hs].
    destruct (hex_digit_lower c Hc) as (d & Hd & _).
    cbn [Str.parse_hex_digits Spec.unsigned_hex String.length]. rewrite Hd.
    rewrite (IH _ Hs), Nat2Z.inj_succ, Z.pow_succ_r by lia. f_equal. lia.
Qed.

(** [parseInt] of a non-empty run of lowercase hexadecimal digits. *)
Lemma parseInt16_lower_hex w :
  w <> EmptyString -> all_chars lower_hex w = true ->
  Str.parseInt16 w = Num.of_Z (Spec.unsigned_hex w).
Proof.
  intros Hne Hall. destruct w as [|c w]; [congruence|].
  cbn [all_chars] in Hall. apply andb_prop in Hall as [Hc Hw].
  destruct (hex_digit_lower c Hc) as (d & Hd & _).
  assert (Hparse :
    Str.parse_hex_digits (String c w) None
    = Some (Spec.unsigned_hex (String c w))).
  { cbn [Str.parse_hex_digits Spec.unsigned_hex]. rewrite Hd.
    rewrite (parse_hex_digits_all w _ Hw). f_equal; lia. }
  assert (Hstrip :
    Str.strip_sign (Str.skip_white_space (String c w)) = (false, String c w)
    /\ Str.strip_0x (String c w) = String c w).
  { pose proof (lower_hex_cases c Hc) as Hin. simpl in Hin.
    destruct w as [|c' w'].
    - repeat (destruct Hin as [Hin|Hin]; [subst c; split; reflexivity|]).
      destruct Hin.
    - cbn [all_chars] in Hw. apply andb_prop in Hw as [Hc' _].
      pose proof (lower_hex_cases c' Hc') as Hin'. simpl in Hin'.
      destruct Hin as [Hin|Hin].
      + subst c.
        repeat (destruct Hin' as [Hin'|Hin']; [subst c'; split; reflexivity|]).
        destruct Hin'.
      + repeat (destruct Hin as [Hin|Hin]; [subst c; split; reflexivity|]).
        destruct Hin. }
  destruct Hstrip as [Hsign H0x].
  unfold Str.parseInt16. now rewrite Hsign, H0x, Hparse.
Qed.

Lemma unsigned_hex_range s :
  0 <= Spec.unsigned_hex s <= 16 ^ Z.of_nat (String.length s) - 1.
Proof.
  induction s as [|c s IH]; [simpl; lia|].
  cbn [Spec.unsigned_hex String.length].
  rewrite Nat2Z.inj_succ, Z.pow_succ_r by lia.
  assert (0 < 16 ^ Z.of_nat (String.length s))
    by (apply Z.pow_pos_nonneg; lia).
  assert (Hd : 0 <= match Str.hex_digit c with Some d => d | None => 0 end
               <= 15).
  { destruct c as [[] [] [] [] [] [] [] []]; vm_compute; split;
      discriminate. }
  nia.
Qed.

(** Only a run of [f] reaches the largest value of its length. *)
Lemma unsigned_hex_all_f s :
  all_chars lower_hex s = true ->
  Spec.unsigned_hex s = 16 ^ Z.of_nat (String.length s) - 1 ->
  s = Str.replicate (String.length s) "f".
Proof.
  induction s as [|c s IH]; intros Hall Hval; [reflexivity|].
  cbn [all_chars] in Hall. apply andb_prop in Hall as [Hc Hs].
  destruct (hex_digit_lower c Hc) as (d & Hd & Hrange & Hf).
  cbn [Spec.unsigned_hex String.length Str.replicate] in *.
  rewrite Hd, Nat2Z.inj_succ, Z.pow_succ_r in Hval by lia.
  pose proof (unsigned_hex_range s) as Hs'.
  assert (0 < 16 ^ Z.of_nat (String.length s))
    by (apply Z.pow_pos_nonneg; lia).
  assert (d = 15) by nia.
  assert (Spec.unsigned_hex s = 16 ^ Z.of_nat (String.length s) - 1) by nia.
  rewrite Hf, <- IH by assumption. reflexivity.
Qed.

Lemma substring_all_chars p n m s :
  all_chars p s = true -> all_chars p (String.substring n m s) = true.
Proof.
  revert n m. induction s as [|c s IH]; intros n m H.
  - now destruct n, m.
  - cbn [all_chars] in H. apply andb_prop in H as [Hc Hs].
    destruct n as [|n]; [destruct m as [|m]|]; cbn [String.substring].
    + reflexivity.
    + cbn [all_chars]. now rewrite Hc, IH.
    + now apply IH.
Qed.

Lemma substring_length n m s :
  (n + m <= String.length s)%nat ->
  String.length (String.substring n m s) = m.
Proof.
  revert n m. induction s as [|c s IH]; intros n m H.
  - simpl in H. now destruct n, m.
  - cbn [String.length] in H.
    destruct n as [|n]; [destruct m as [|m]|]; cbn [String.substring].
    + reflexivity.
    + cbn [String.length]. rewrite IH; [reflexivity|lia].
    + apply IH. lia.
Qed.

(** On a well-formed digest the code reads the last 13 characters, which
    are 13 lowercase hexadecimal digits. *)
Lemma substr_window sha1_hex digest :
  hex_digests sha1_hex -> is_hex_digest digest = true ->
  Str.substr digest (HASH_LENGTH sha1_hex - MAX_SAFE_HEX_LENGTH)
  = Spec.window 13 digest
  /\ all_chars lower_hex (Spec.window 13 digest) = true
  /\ String.length (Spec.window 13 digest) = 13%nat.
Proof.
  intros Hsha Hdigest.
  pose proof (Hsha ("" ++ "")) as Hload.
  unfold is_hex_digest in *.
  apply andb_prop in Hload as [Hlen0 _].
  apply andb_prop in Hdigest as [Hlen Hall].
  apply Nat.eqb_eq in Hlen0, Hlen.
  unfold HASH_LENGTH, Str.substr, Str.length, Spec.window.
  rewrite Hlen0, Hlen. repeat split.
  - now apply substring_all_chars.
  - apply substring_length. rewrite Hlen. simpl. lia.
Qed.

(** The cohort value the code computes is the specification's, and lies
    in [[0,1]]; it is 1 for the window of thirteen [f] only. *)
Lemma cohort_of_spec sha1_hex digest :
  hex_digests sha1_hex -> is_hex_digest digest = true ->
  cohort_of sha1_hex digest = Spec.cohort digest
  /\ Spec.in_unit_closed (Spec.cohort digest)
  /\ (Num.ltb (Spec.cohort digest) Num.one = false
      <-> Spec.window 13 digest = "fffffffffffff").
Proof.
  intros Hsha Hdigest.
  destruct (substr_window sha1_hex digest Hsha Hdigest)
    as (Hsub & Hall & Hlen).
  pose proof (unsigned_hex_range (Spec.window 13 digest)) as Hrange.
  rewrite Hlen in Hrange. change (16 ^ Z.of_nat 13 - 1) with 0xfffffffffffff
    in Hrange.
  destruct (div_by_all_f_range _ Hrange) as [Hunit Hone].
  split; [|split].
  - unfold cohort_of, Spec.cohort. rewrite Hsub.
    rewrite parseInt16_lower_hex; [reflexivity| |exact Hall].
    intros E. rewrite E in Hlen. discriminate Hlen.
  - exact Hunit.
  - unfold Spec.cohort. rewrite Hone. split.
    + intros Hval.
      rewrite (unsigned_hex_all_f (Spec.window 13 digest) Hall);
        rewrite Hlen; [reflexivity|exact Hval].
    + now intros ->.
Qed.

Lemma ltb_zero_not_zero (x : number) :
  Num.ltb Num.zero x = true -> Num.strict_eq x Num.zero = false.
Proof.
  destruct x as [s|[|]| |[|] m e]; intros H;
    first [reflexivity|discriminate H].
Qed.

Lemma ltb_one_not_one (x : number) :
  Num.ltb x Num.one = true -> Num.strict_eq x Num.one = false.
Proof.
  unfold Num.ltb, Num.strict_eq, SFltb, SFeqb.
  now destruct (SFcompare x Num.one) as [[| |]|].
Qed.

(** The digest that ends in thirteen [f] (the stub digest of the unit
    tests) has the cohort value 1, which is not below 1. *)
Lemma cohort_reaches_one :
  let uid := Str.fill_join 64 "f" in
  hex_digests (Fixture.stub Fixture.all_f)
  /\ all_chars lower_hex uid = true
  /\ "foo" <> EmptyString
  /\ Num.ltb Num.zero (Fixture.rate 50) = true
  /\ Num.ltb (Fixture.rate 50) Num.one = true
  /\ cohort_of (Fixture.stub Fixture.all_f)
       (Fixture.stub Fixture.all_f (uid ++ "foo")) = Num.one
  /\ ~ cohort_below_one (Fixture.stub Fixture.all_f) uid "foo".
Proof.
  intro uid. repeat split; try discriminate.
  intros [_ H]. discriminate H.
Qed.

(** C1: on the general path (a sample rate strictly between 0 and 1) the
    sampler computes one digest of the user id followed by the feature
    key, reads its last 13 hexadecimal characters as an unsigned integer,
    divides by [0xfffffffffffff] and compares the quotient with the rate;
    that cohort value lies in the closed interval [[0,1]], and is below 1
    unless the 13 characters are all [f]. *)
Theorem cohort_in_closed_unit_interval sha1_hex sampleRate uid key log :
  hex_digests sha1_hex ->
  Num.ltb Num.zero sampleRate = true ->
  Num.ltb sampleRate Num.one = true ->
  let digest := sha1_hex (uid_text uid ++ key) in
  isSampledUser sha1_hex sampleRate uid key log
  = (Normal (Num.ltb (Spec.cohort digest) sampleRate),
     (log ++ hash_calls (uid_text uid) key)%list)
  /\ Spec.in_unit_closed (Spec.cohort digest)
  /\ (Num.ltb (Spec.cohort digest) Num.one = false
      <-> Spec.window 13 digest = "fffffffffffff").
Proof.
  intros Hsha Hpos Hbelow digest.
  destruct (cohort_of_spec sha1_hex digest Hsha (Hsha _))
    as (Hcohort & Hunit & Hone).
  split; [|split; assumption].
  rewrite isSampledUser_general
    by (apply ltb_one_not_one || apply ltb_zero_not_zero; assumption).
  fold digest. now rewrite Hcohort.
Qed.

Lemma cohort_in_closed_unit_interval_witness :
  let sha1_hex := Fixture.stub Fixture.cohort_02 in
  let uid := Str.fill_join 64 "7" in
  (hex_digests sha1_hex
   /\ Num.ltb Num.zero (Fixture.rate 3) = true
   /\ Num.ltb (Fixture.rate 3) Num.one = true)
  /\ isSampledUser sha1_hex (Fixture.rate 3) (UidString uid) "wibble" []
     = (Normal (Num.ltb (Spec.cohort (sha1_hex (uid ++ "wibble")))
                  (Fixture.rate 3)),
        hash_calls uid "wibble")
  /\ Spec.in_unit_closed (Spec.cohort (sha1_hex (uid ++ "wibble"))).
Proof.
  intros sha1_hex uid.
  assert (Hsha : hex_digests sha1_hex) by (intro data; reflexivity).
  split; [repeat split; assumption|].
  destruct (cohort_in_closed_unit_interval sha1_hex (Fixture.rate 3)
              (UidString uid) "wibble" [] Hsha eq_refl eq_refl)
    as (Hrun & Hunit & _).
  split; assumption.
Defined.

(** * Further properties of the module *)

(** ** The order of numbers *)

Lemma compare_cont_spec x y :
  CompareSpec (x = y) (Pos.lt x y) (Pos.lt y x) (Pos.compare_cont Eq x y).
Proof. exact (Pos.compare_spec x y). Qed.

Ltac order_cases :=
  repeat match goal with
    | H : context [Z.compare ?x ?y] |- _ =>
        destruct (Z.compare_spec x y); try subst
    | |- context [Z.compare ?x ?y] =>
        destruct (Z.compare_spec x y); try subst
    | H : context [Pos.compare_cont Eq ?x ?y] |- _ =>
        destruct (compare_cont_spec x y); try subst
    | |- context [Pos.compare_cont Eq ?x ?y] =>
        destruct (compare_cont_spec x y); try subst
    end;
  cbn [CompOpp] in *; try discriminate; try reflexivity; try lia.

Lemma SFltb_leb_trans x y z :
  SFltb x y = true -> SFleb y z = true -> SFltb x z = true.
Proof.
  unfold SFltb, SFleb.
  destruct x as [[|]|[|]| |[|] mx ex], y as [[|]|[|]| |[|] my ey],
    z as [[|]|[|]| |[|] mz ez]; cbn [SFcompare];
    try discriminate; try reflexivity; intros H1 H2; order_cases.
Qed.

Lemma SFleb_ltb_trans x y z :
  SFleb x y = true -> SFltb y z = true -> SFltb x z = true.
Proof.
  unfold SFltb, SFleb.
  destruct x as [[|]|[|]| |[|] mx ex], y as [[|]|[|]| |[|] my ey],
    z as [[|]|[|]| |[|] mz ez]; cbn [SFcompare];
    try discriminate; try reflexivity; intros H1 H2; order_cases.
Qed.

Lemma SFltb_leb_asym x y : SFltb x y = true -> SFleb y x = false.
Proof.
  unfold SFltb, SFleb.
  destruct x as [[|]|[|]| |[|] mx ex], y as [[|]|[|]| |[|] my ey];
    cbn [SFcompare]; try discriminate; try reflexivity; intros H1;
    order_cases.
Qed.

Lemma SFleb_of_ltb x y : SFltb x y = true -> SFleb x y = true.
Proof.
  unfold SFltb, SFleb. now destruct (SFcompare x y) as [[| |]|].
Qed.

(** Only 1 is strictly equal to 1, and only the two zeros to 0. *)
Lemma strict_eq_one_inv (x : number) :
  Num.strict_eq x Num.one = true -> x = Num.one.
Proof.
  change Num.one with (S754_finite false 4503599627370496 (-52)).
  unfold Num.strict_eq, SFeqb.
  destruct x as [[|]|[|]| |[|] m e]; cbn [SFcompare]; try discriminate.
  intros H. order_cases.
Qed.

Lemma strict_eq_zero_inv (x : number) :
  Num.strict_eq x Num.zero = true -> exists s, x = S754_zero s.
Proof.
  destruct x as [s|[|]| |[|] m e]; try discriminate. now exists s.
Qed.

Lemma ltb_one_of_leb (x : number) :
  Num.leb Num.one x = true -> Num.strict_eq x Num.one = false ->
  Num.ltb Num.one x = true.
Proof.
  change Num.one with (S754_finite false 4503599627370496 (-52)).
  unfold Num.leb, Num.strict_eq, Num.ltb, SFleb, SFeqb, SFltb.
  destruct x as [[|]|[|]| |[|] m e]; cbn [SFcompare];
    try discriminate; try reflexivity; intros H1 H2; order_cases.
Qed.

(** The cohort value of a well-formed digest is at least 0 and at most 1. *)
Lemma cohort_of_range sha1_hex digest :
  hex_digests sha1_hex -> is_hex_digest digest = true ->
  Num.leb Num.zero (cohort_of sha1_hex digest) = true
  /\ Num.leb (cohort_of sha1_hex digest) Num.one = true.
Proof.
  intros Hsha Hdigest.
  destruct (cohort_of_spec sha1_hex digest Hsha Hdigest) as (-> & Hunit & _).
  exact Hunit.
Qed.

Lemma not_below_zero (x : number) s :
  Num.leb Num.zero x = true -> Num.ltb x (S754_zero s) = false.
Proof. destruct x as [[|]|[|]| |[|] m e]; try discriminate; reflexivity. Qed.

(** ** The sampler and the rate *)

Lemma ltb_NaN (x : number) : Num.ltb x Num.NaN = false.
Proof. now destruct x. Qed.

(** X1: raising the sample rate never drops a user from the cohort: a user
    who is sampled at one rate is sampled at every rate that is at least
    as large, whatever the two rates are. *)
Theorem isSampledUser_monotone sha1_hex rate1 rate2 uid key log1 log2 :
  hex_digests sha1_hex ->
  Num.leb rate1 rate2 = true ->
  outcome (isSampledUser sha1_hex rate1 uid key log1) = Normal true ->
  outcome (isSampledUser sha1_hex rate2 uid key log2) = Normal true.
Proof.
  intros Hsha Hle Hsampled.
  destruct (cohort_of_range sha1_hex _ Hsha (Hsha (uid_text uid ++ key)))
    as [Hlow Hhigh].
  set (cohort := cohort_of sha1_hex (sha1_hex (uid_text uid ++ key))) in *.
  assert (Hcohort : Num.ltb cohort rate2 = true
                    \/ exists s, rate1 = Num.one /\ rate2 = S754_zero s
                    \/ rate2 = Num.one).
  { destruct (Num.strict_eq rate2 Num.one) eqn:H2one;
      [apply strict_eq_one_inv in H2one; right; exists true; now right|].
    destruct (Num.strict_eq rate1 Num.one) eqn:H1one.
    - apply strict_eq_one_inv in H1one. subst rate1. left.
      apply (SFleb_ltb_trans cohort Num.one rate2 Hhigh).
      now apply ltb_one_of_leb.
    - destruct (Num.strict_eq rate1 Num.zero) eqn:H1zero.
      + unfold isSampledUser in Hsampled. rewrite H1one, H1zero in Hsampled.
        discriminate Hsampled.
      + rewrite isSampledUser_general in Hsampled by assumption.
        unfold outcome in Hsampled; cbn [fst] in Hsampled.
        injection Hsampled as Hsampled. fold cohort in Hsampled. left.
        exact (SFltb_leb_trans cohort rate1 rate2 Hsampled Hle). }
  destruct Hcohort as [Hlt|[s [[-> ->]| ->]]].
  - destruct (Num.strict_eq rate2 Num.one) eqn:H2one;
      [unfold isSampledUser; now rewrite H2one|].
    destruct (Num.strict_eq rate2 Num.zero) eqn:H2zero.
    + apply strict_eq_zero_inv in H2zero as [s ->].
      now rewrite (not_below_zero cohort s Hlow) in Hlt.
    + rewrite isSampledUser_general by assumption.
      unfold outcome; cbn [fst]. fold cohort. now rewrite Hlt.
  - now destruct s.
  - reflexivity.
Qed.

Lemma isSampledUser_monotone_witness :
  let sha1_hex := Fixture.stub Fixture.cohort_02 in
  (hex_digests sha1_hex
   /\ Num.leb (Fixture.rate 3) (Fixture.rate 5) = true
   /\ outcome (isSampledUser sha1_hex (Fixture.rate 3) Fixture.uid_77
                 "wibble" []) = Normal true)
  /\ outcome (isSampledUser sha1_hex (Fixture.rate 5) Fixture.uid_77
                "wibble" []) = Normal true.
Proof.
  intros sha1_hex.
  assert (Hsha : hex_digests sha1_hex) by (intro data; reflexivity).
  split; [repeat split; assumption|].
  exact (isSampledUser_monotone sha1_hex (Fixture.rate 3) (Fixture.rate 5)
           Fixture.uid_77 "wibble" [] [] Hsha eq_refl eq_refl).
Defined.

(** X2: the sampler does not check the range of the rate: a rate above 1
    samples every user, a rate below 0 samples no user, and a rate that is
    NaN samples no user after computing the digest all the same. *)
Theorem isSampledUser_out_of_range sha1_hex sampleRate uid key log :
  hex_digests sha1_hex ->
  (Num.ltb Num.one sampleRate = true ->
   outcome (isSampledUser sha1_hex sampleRate uid key log) = Normal true)
  /\ (Num.ltb sampleRate Num.zero = true ->
      outcome (isSampledUser sha1_hex sampleRate uid key log) = Normal false)
  /\ isSampledUser sha1_hex Num.NaN uid key log
     = (Normal false, (log ++ hash_calls (uid_text uid) key)%list).
Proof.
  intros Hsha.
  destruct (cohort_of_range sha1_hex _ Hsha (Hsha (uid_text uid ++ key)))
    as [Hlow Hhigh].
  set (cohort := cohort_of sha1_hex (sha1_hex (uid_text uid ++ key))) in *.
  split; [|split].
  - intros Habove.
    destruct (Num.strict_eq sampleRate Num.one) eqn:Hone;
      [unfold isSampledUser; now rewrite Hone|].
    destruct (Num.strict_eq sampleRate Num.zero) eqn:Hzero.
    + apply strict_eq_zero_inv in Hzero as [s ->]. now destruct s.
    + rewrite isSampledUser_general by assumption.
      unfold outcome; cbn [fst]. fold cohort.
      assert (Hlt : Num.ltb cohort sampleRate = true)
        by exact (SFleb_ltb_trans cohort Num.one sampleRate Hhigh Habove).
      now rewrite Hlt.
  - intros Hbelow.
    destruct (Num.strict_eq sampleRate Num.one) eqn:Hone;
      [apply strict_eq_one_inv in Hone; subst; discriminate Hbelow|].
    destruct (Num.strict_eq sampleRate Num.zero) eqn:Hzero;
      [unfold isSampledUser; now rewrite Hone, Hzero|].
    rewrite isSampledUser_general by assumption.
    unfold outcome; cbn [fst]. fold cohort. f_equal.
    destruct (Num.ltb cohort sampleRate) eqn:Hlt; [|reflexivity].
    assert (Hneg : Num.ltb cohort (S754_zero false) = true)
      by exact (SFltb_leb_trans cohort sampleRate Num.zero Hlt
                  (SFleb_of_ltb _ _ Hbelow)).
    now rewrite (not_below_zero cohort false Hlow) in Hneg.
  - rewrite isSampledUser_general by reflexivity. now rewrite ltb_NaN.
Qed.

Lemma isSampledUser_out_of_range_witness :
  let sha1_hex := Fixture.stub Fixture.all_f in
  hex_digests sha1_hex
  /\ outcome (isSampledUser sha1_hex (Num.of_Z 2) Fixture.uid_ff "foo" [])
     = Normal true
  /\ outcome (isSampledUser sha1_hex (Num.of_Z (-1)) Fixture.uid_ff "foo" [])
     = Normal false.
Proof.
  intros sha1_hex.
  assert (Hsha : hex_digests sha1_hex) by (intro data; reflexivity).
  split; [assumption|].
  split.
  - exact (proj1 (isSampledUser_out_of_range sha1_hex (Num.of_Z 2)
                    Fixture.uid_ff "foo" [] Hsha) eq_refl).
  - exact (proj1 (proj2 (isSampledUser_out_of_range sha1_hex (Num.of_Z (-1))
                           Fixture.uid_ff "foo" [] Hsha)) eq_refl).
Defined.

(** ** The digest window *)

Lemma substring_whole w : String.substring 0 (String.length w) w = w.
Proof. induction w as [|c w IH]; [reflexivity|]. cbn. now rewrite IH. Qed.

Lemma substring_app_skip p w :
  String.substring (String.length p) (String.length w) (p ++ w) = w.
Proof. induction p as [|c p IH]; [apply substring_whole|exact IH]. Qed.

Lemma substr_after_prefix sha1_hex prefix w :
  hex_digests sha1_hex -> String.length prefix = 27%nat ->
  Str.substr (prefix ++ w) (HASH_LENGTH sha1_hex - MAX_SAFE_HEX_LENGTH) = w.
Proof.
  intros Hsha Hprefix. pose proof (Hsha ("" ++ "")) as Hload.
  unfold is_hex_digest in Hload. apply andb_prop in Hload as [Hlen _].
  apply Nat.eqb_eq in Hlen.
  unfold HASH_LENGTH, Str.substr, Str.length.
  rewrite Hlen, length_app, Hprefix.
  change (Z.of_nat 40 - MAX_SAFE_HEX_LENGTH) with 27.
  change (27 <? 0) with false. cbv iota.
  rewrite Z.min_l by lia.
  replace (Z.to_nat (Z.of_nat (27 + String.length w) - 27))
    with (String.length w) by lia.
  change (Z.to_nat 27) with 27%nat. rewrite <- Hprefix.
  apply substring_app_skip.
Qed.

(** X3: the cohort value reads the last 13 characters of the digest only:
    two digests that differ in their first 27 characters alone have the
    same cohort value. *)
Theorem cohort_ignores_digest_prefix sha1_hex prefix1 prefix2 w :
  hex_digests sha1_hex ->
  String.length prefix1 = 27%nat ->
  String.length prefix2 = 27%nat ->
  cohort_of sha1_hex (prefix1 ++ w) = cohort_of sha1_hex (prefix2 ++ w).
Proof.
  intros Hsha H1 H2. unfold cohort_of.
  now rewrite !substr_after_prefix by assumption.
Qed.

Lemma cohort_ignores_digest_prefix_witness :
  let sha1_hex := Fixture.stub Fixture.cohort_02 in
  (hex_digests sha1_hex
   /\ String.length (Str.fill_join 27 "0") = 27%nat
   /\ String.length (Str.fill_join 27 "9") = 27%nat)
  /\ cohort_of sha1_hex (Str.fill_join 27 "0" ++ "051eb851eb852")
     = cohort_of sha1_hex (Str.fill_join 27 "9" ++ "051eb851eb852").
Proof.
  intros sha1_hex.
  assert (Hsha : hex_digests sha1_hex) by (intro data; reflexivity).
  split; [repeat split; assumption|].
  exact (cohort_ignores_digest_prefix sha1_hex (Str.fill_join 27 "0")
           (Str.fill_join 27 "9") "051eb851eb852" Hsha eq_refl eq_refl).
Defined.

(** X4: the two ends of the cohort range behave differently.  A user whose
    digest ends in thirteen [0] is sampled at every rate above 0; a user
    whose digest ends in thirteen [f] is sampled at no rate below 1, so
    only by the fast path of the rate 1. *)
Theorem extreme_cohorts sha1_hex sampleRate uid key log :
  hex_digests sha1_hex ->
  let digest := sha1_hex (uid_text uid ++ key) in
  (Spec.window 13 digest = "0000000000000" ->
   Num.ltb Num.zero sampleRate = true ->
   outcome (isSampledUser sha1_hex sampleRate uid key log) = Normal true)
  /\ (Spec.window 13 digest = "fffffffffffff" ->
      Num.ltb sampleRate Num.one = true ->
      outcome (isSampledUser sha1_hex sampleRate uid key log) = Normal false).
Proof.
  intros Hsha digest.
  destruct (cohort_of_spec sha1_hex digest Hsha (Hsha _)) as (Hcohort & _).
  unfold Spec.cohort in Hcohort. split; intros Hwindow Hrate.
  - rewrite Hwindow in Hcohort.
    change (Num.div _ _) with (S754_zero false) in Hcohort.
    destruct (Num.strict_eq sampleRate Num.one) eqn:Hone;
      [unfold isSampledUser; now rewrite Hone|].
    rewrite isSampledUser_general
      by (assumption || now apply ltb_zero_not_zero).
    unfold outcome; cbn [fst]. fold digest. rewrite Hcohort.
    change (S754_zero false) with Num.zero. now rewrite Hrate.
  - rewrite Hwindow in Hcohort.
    change (Num.div _ _) with Num.one in Hcohort.
    pose proof (ltb_one_not_one sampleRate Hrate) as Hone.
    destruct (Num.strict_eq sampleRate Num.zero) eqn:Hzero;
      [unfold isSampledUser; now rewrite Hone, Hzero|].
    rewrite isSampledUser_general by assumption.
    unfold outcome; cbn [fst]. fold digest. rewrite Hcohort. f_equal.
    destruct (Num.ltb Num.one sampleRate) eqn:Hlt; [|reflexivity].
    apply SFleb_of_ltb in Hlt.
    now rewrite (SFltb_leb_asym sampleRate Num.one Hrate) in Hlt.
Qed.

Lemma extreme_cohorts_witness :
  let sha1_hex := Fixture.stub Fixture.all_f in
  (hex_digests sha1_hex
   /\ Spec.window 13 (sha1_hex (uid_text Fixture.uid_ff ++ "foo"))
      = "fffffffffffff"
   /\ Num.ltb (Fixture.rate 99) Num.one = true)
  /\ outcome (isSampledUser sha1_hex (Fixture.rate 99) Fixture.uid_ff "foo" [])
     = Normal false.
Proof.
  intros sha1_hex.
  assert (Hsha : hex_digests sha1_hex) by (intro data; reflexivity).
  split; [repeat split; assumption|].
  exact (proj2 (extreme_cohorts sha1_hex (Fixture.rate 99) Fixture.uid_ff
                  "foo" [] Hsha) eq_refl eq_refl).
Defined.

(** ** What the gates do to the call log, and when they throw *)

(** A run of the sampler returns a boolean, after no call to [crypto] or
    after the four calls of one digest. *)
Lemma isSampledUser_run sha1_hex sampleRate uid key log :
  exists b calls,
    isSampledUser sha1_hex sampleRate uid key log
    = (Normal b, (log ++ calls)%list)
    /\ b = sampled sha1_hex sampleRate uid key
    /\ (calls = [] \/ calls = hash_calls (uid_text uid) key).
Proof.
  pose proof (isSampledUser_outcome sha1_hex sampleRate uid key log) as Hb.
  destruct (Num.strict_eq sampleRate Num.one) eqn:H1.
  - exists true, []. unfold isSampledUser in *. rewrite H1 in *.
    rewrite app_nil_r. injection Hb as Hb. repeat split; auto.
  - destruct (Num.strict_eq sampleRate Num.zero) eqn:H0.
    + exists false, []. unfold isSampledUser in *. rewrite H1, H0 in *.
      rewrite app_nil_r. injection Hb as Hb. repeat split; auto.
    + rewrite isSampledUser_general in * by assumption.
      injection Hb as Hb. eexists _, _. repeat split; eauto.
Qed.

(** X5: a gate computes at most one digest: after a call of any of the
    three sampled gates the call log is the one before, or the one before
    followed by the four [crypto] calls of one digest of the user id (as
    text) and the gate's feature key; [canBypassSiginConfirmation] leaves
    the call log as it was. *)
Theorem one_digest_at_most
  sha1_hex config uid email request verified recency log :
  let one_digest key after :=
    after = log \/ after = (log ++ hash_calls (uid_text uid) key)%list in
  one_digest "lastAccessTimeUpdates"
    (call_log (isLastAccessTimeEnabledForUser sha1_hex config uid email log))
  /\ one_digest "signinConfirmation"
       (call_log (isSigninConfirmationEnabledForUser sha1_hex config uid
                    email request log))
  /\ one_digest "signinUnblock"
       (call_log (isSigninUnblockEnabledForUser sha1_hex config uid email
                    request log))
  /\ call_log (canBypassSiginConfirmation config email verified recency log)
     = log.
Proof.
  intros one_digest. subst one_digest. cbv beta.
  assert (Hsampler : forall rate key,
            call_log (isSampledUser sha1_hex rate uid key log) = log
            \/ call_log (isSampledUser sha1_hex rate uid key log)
               = (log ++ hash_calls (uid_text uid) key)%list).
  { intros rate key.
    destruct (isSampledUser_run sha1_hex rate uid key log)
      as (b & calls & -> & _ & [->| ->]); cbn [call_log snd];
      [left; apply app_nil_r|now right]. }
  repeat split.
  - unfold isLastAccessTimeEnabledForUser; cbv zeta.
    destruct (LastAccessTimeUpdates.enabled _); [|now left].
    unfold bind.
    pose proof (Hsampler
                  (LastAccessTimeUpdates.sampleRate
                     (lastAccessTimeUpdates config))
                  "lastAccessTimeUpdates") as Hlog.
    destruct (isSampledUser_run sha1_hex
                (LastAccessTimeUpdates.sampleRate
                   (lastAccessTimeUpdates config))
                uid "lastAccessTimeUpdates" log) as (b & calls & E & _).
    rewrite E in Hlog |- *. cbn [call_log snd] in Hlog.
    destruct b; [exact Hlog|].
    now destruct (LastAccessTimeUpdates.enabledEmailAddresses _).
  - unfold isSigninConfirmationEnabledForUser; cbv zeta.
    destruct (negb _); [now left|].
    destruct (isSuspiciousRequest _); [now left|].
    destruct (test _ email); [now left|].
    destruct (_ =? -1); [now left|apply Hsampler].
  - unfold isSigninUnblockEnabledForUser; cbv zeta.
    destruct (negb _); [now left|].
    unfold bind, test_method, ret, throw.
    destruct (SigninUnblock.forcedEmailAddresses _) as [forced|];
      [destruct (test forced email); [now left|]|];
      (destruct (SigninUnblock.allowedEmailAddresses _) as [allowed|];
       [|now left];
       destruct (test allowed email); [now left|];
       destruct (_ =? -1); [now left|apply Hsampler]).
  - unfold canBypassSiginConfirmation; cbv zeta.
    destruct (_ && _); [reflexivity|].
    destruct (SecurityHistory.enabled _); [|reflexivity].
    destruct (SecurityHistory.ipProfiling _) as [[[|]]|]; try reflexivity.
    now destruct verified.
Qed.

(** X6: [isLastAccessTimeEnabledForUser] throws in one situation only:
    the feature is enabled, the user is not sampled and no enabled-email
    pattern is configured; in every other situation it returns a
    boolean. *)
Theorem isLastAccessTimeEnabledForUser_throws sha1_hex config uid email log :
  let gate := lastAccessTimeUpdates config in
  let run := isLastAccessTimeEnabledForUser sha1_hex config uid email log in
  (outcome run = Throw TypeError
   <-> LastAccessTimeUpdates.enabled gate = true
       /\ sampled sha1_hex (LastAccessTimeUpdates.sampleRate gate) uid
            "lastAccessTimeUpdates" = false
       /\ LastAccessTimeUpdates.enabledEmailAddresses gate = None)
  /\ (outcome run <> Throw TypeError -> exists b, outcome run = Normal b).
Proof.
  intros gate run. subst run.
  unfold isLastAccessTimeEnabledForUser, bind; cbv zeta. fold gate.
  destruct (isSampledUser_run sha1_hex
              (LastAccessTimeUpdates.sampleRate gate) uid
              "lastAccessTimeUpdates" log) as (b & calls & E & Hb & _).
  rewrite <- Hb. clear Hb.
  destruct (LastAccessTimeUpdates.enabled gate); cbv beta; rewrite ?E;
    unfold outcome.
  - destruct b; cbn [fst ret].
    + split; [split; [discriminate|intros (_ & H & _); discriminate H]|].
      now exists true.
    + destruct (LastAccessTimeUpdates.enabledEmailAddresses gate) as [re|];
        unfold test_method, ret, throw; cbn [fst].
      * split; [split; [discriminate|intros (_ & _ & H); discriminate H]|].
        now eexists.
      * split; [split; [now intros _|reflexivity]|]. now intros H.
  - split; [split; [discriminate|intros (H & _); discriminate H]|].
    now exists false.
Qed.

(** X7: [isLastAccessTimeEnabledForUser] consults the sampler before it
    looks at the email: whenever the feature is enabled its calls to
    [crypto] are those of the sampler, whether the email matches the
    pattern or not; disabled, it makes none. *)
Theorem isLastAccessTimeEnabledForUser_samples_first
  sha1_hex config uid email log :
  let gate := lastAccessTimeUpdates config in
  call_log (isLastAccessTimeEnabledForUser sha1_hex config uid email log)
  = if LastAccessTimeUpdates.enabled gate
    then call_log (isSampledUser sha1_hex
                     (LastAccessTimeUpdates.sampleRate gate) uid
                     "lastAccessTimeUpdates" log)
    else log.
Proof.
  intros gate. unfold isLastAccessTimeEnabledForUser, bind; cbv zeta.
  fold gate.
  destruct (LastAccessTimeUpdates.enabled gate); [|reflexivity].
  destruct (isSampledUser_run sha1_hex
              (LastAccessTimeUpdates.sampleRate gate) uid
              "lastAccessTimeUpdates" log) as (b & calls & E & _).
  rewrite E. destruct b; [reflexivity|].
  now destruct (LastAccessTimeUpdates.enabledEmailAddresses gate).
Qed.

(** X8: [isSigninUnblockEnabledForUser] throws in one situation only: the
    feature is enabled, the email does not match a configured forced
    pattern and no allowed-email pattern is configured; it then throws
    whatever the client context and the sample rate are, before any call
    to [crypto]. *)
Theorem isSigninUnblockEnabledForUser_throws
  sha1_hex config uid email request log :
  let gate := signinUnblock config in
  let run :=
    isSigninUnblockEnabledForUser sha1_hex config uid email request log in
  (outcome run = Throw TypeError
   <-> SigninUnblock.enabled gate = true
       /\ Spec.matches (SigninUnblock.forcedEmailAddresses gate) email = false
       /\ SigninUnblock.allowedEmailAddresses gate = None)
  /\ (outcome run = Throw TypeError -> call_log run = log)
  /\ (outcome run <> Throw TypeError -> exists b, outcome run = Normal b).
Proof.
  intros gate run. subst run.
  unfold isSigninUnblockEnabledForUser, Spec.matches; cbv zeta. fold gate.
  destruct (isSampledUser_run sha1_hex (SigninUnblock.sampleRate gate) uid
              "signinUnblock" log) as (b & calls & E & _).
  destruct (SigninUnblock.enabled gate); cbn [negb];
    [|split; [split; [discriminate|intros (H & _); discriminate H]|];
      split; [discriminate|now exists false]].
  unfold bind, test_method, ret, throw, outcome, call_log.
  destruct (SigninUnblock.forcedEmailAddresses gate) as [forced|];
    [destruct (test forced email);
     [split; [split; [discriminate|intros (_ & H & _); discriminate H]|];
      split; [discriminate|now exists true]|]|];
    (destruct (SigninUnblock.allowedEmailAddresses gate) as [allowed|];
     [|split; [split; [now intros _|reflexivity]|];
       split; [reflexivity|now intros H]];
     (split; [split; [|intros (_ & _ & H); discriminate H]|split]);
     (destruct (test allowed email);
      [first [discriminate|now exists true]|];
      destruct (_ =? -1);
      [first [discriminate|now exists false]|];
      rewrite E; first [discriminate|now exists b])).
Qed.

(** X9: [canBypassSiginConfirmation] never throws and never calls
    [crypto]; it returns [undefined] instead of a boolean exactly when the
    forced-email check does not fire, security history is enabled and the
    [ipProfiling] entry is absent. *)
Theorem canBypassSiginConfirmation_result
  config email verified recency log :
  let confirmation := signinConfirmation config in
  let history := securityHistory config in
  exists v,
    canBypassSiginConfirmation config email verified recency log
    = (Normal v, log)
    /\ (v = VUndefined
        <-> (SigninConfirmation.enabled confirmation
             && test (SigninConfirmation.forcedEmailAddresses confirmation)
                  email)%bool = false
            /\ SecurityHistory.enabled history = true
            /\ SecurityHistory.ipProfiling history = None).
Proof.
  intros confirmation history.
  unfold canBypassSiginConfirmation; cbv zeta.
  fold confirmation. fold history. unfold ret.
  destruct (_ && _)%bool;
    [eexists; split; [reflexivity|];
     split; [discriminate|intros (H & _); discriminate H]|].
  destruct (SecurityHistory.enabled history);
    [|eexists; split; [reflexivity|];
      split; [discriminate|intros (_ & H & _); discriminate H]].
  destruct (SecurityHistory.ipProfiling history) as [[[|]]|];
    [destruct verified| |];
    (eexists; split; [reflexivity|]);
    (split; [first [discriminate|now intros _]
            |first [reflexivity|intros (_ & _ & H); discriminate H]]).
Qed.

(** ** Client contexts *)

Lemma supported_none clients : Spec.supported clients None = false.
Proof. reflexivity. Qed.

Lemma supported_nil clientContext : Spec.supported [] clientContext = false.
Proof. now destruct clientContext. Qed.

Lemma unsupported_without_context clients request :
  request_context request = None \/ clients = [] ->
  (indexOf clients (request_context request) =? -1) = true.
Proof.
  intros [H|H]; rewrite indexOf_supported, H;
    [now rewrite supported_none|now rewrite supported_nil].
Qed.

(** X10: a request without a client context (no [payload], no
    [metricsContext] or no [context] in it) counts as an unsupported
    client, and so does every request when the list of supported clients
    is empty: sign-in confirmation is then required only for a suspicious
    request or a forced email, the sample rate plays no part and no digest
    is computed. *)
Theorem isSigninConfirmationEnabledForUser_without_context
  sha1_hex config uid email request log :
  let gate := signinConfirmation config in
  request_context request = None
  \/ SigninConfirmation.supportedClients gate = [] ->
  isSigninConfirmationEnabledForUser sha1_hex config uid email request log
  = (Normal (SigninConfirmation.enabled gate
             && (isSuspiciousRequest (app request)
                 || test (SigninConfirmation.forcedEmailAddresses gate)
                      email)),
     log).
Proof.
  intros gate Hcontext.
  unfold isSigninConfirmationEnabledForUser; cbv zeta. fold gate.
  rewrite (unsupported_without_context _ _ Hcontext).
  destruct (SigninConfirmation.enabled gate); [|reflexivity].
  destruct (isSuspiciousRequest (app request)); [reflexivity|].
  now destruct (test _ email).
Qed.

Lemma isSigninConfirmationEnabledForUser_without_context_witness :
  let config :=
    Fixture.with_confirmation
      (Fixture.confirmation true Num.one Fixture.mozilla_org) Fixture.base in
  let request :=
    {| app := {| isSuspiciousRequest := false |}; payload := None |} in
  (request_context request = None
   \/ SigninConfirmation.supportedClients (signinConfirmation config) = [])
  /\ isSigninConfirmationEnabledForUser (Fixture.stub Fixture.cohort_02)
       config (UidString "wibble") "blee@mozilla.com" request []
     = (Normal false, []).
Proof.
  intros config request. split; [now left|].
  exact (isSigninConfirmationEnabledForUser_without_context
           (Fixture.stub Fixture.cohort_02) config (UidString "wibble")
           "blee@mozilla.com" request [] (or_introl eq_refl)).
Defined.

(** X11: likewise for sign-in unblock (with its allowed-email pattern
    configured): without a client context, or with an empty list of
    supported clients, it is enabled only for a forced or an allowed
    email, whatever the sample rate, and no digest is computed. *)
Theorem isSigninUnblockEnabledForUser_without_context
  sha1_hex config uid email request log allowed :
  let gate := signinUnblock config in
  SigninUnblock.allowedEmailAddresses gate = Some allowed ->
  request_context request = None \/ SigninUnblock.supportedClients gate = [] ->
  isSigninUnblockEnabledForUser sha1_hex config uid email request log
  = (Normal (SigninUnblock.enabled gate
             && (Spec.matches (SigninUnblock.forcedEmailAddresses gate) email
                 || test allowed email)),
     log).
Proof.
  intros gate Hallowed Hcontext.
  unfold isSigninUnblockEnabledForUser, Spec.matches; cbv zeta. fold gate.
  rewrite Hallowed, (unsupported_without_context _ _ Hcontext).
  destruct (SigninUnblock.enabled gate); [|reflexivity].
  unfold bind, ret, test_method; cbn [negb].
  destruct (SigninUnblock.forcedEmailAddresses gate) as [forced|];
    [destruct (test forced email); [reflexivity|]|];
    now destruct (test allowed email).
Qed.

Lemma isSigninUnblockEnabledForUser_without_context_witness :
  let config :=
    Fixture.with_unblock
      (Fixture.unblock true 100 None (Some Fixture.mozilla_com))
      Fixture.base in
  let request :=
    {| app := {| isSuspiciousRequest := false |};
       payload := Some {| metricsContext := None |} |} in
  (SigninUnblock.allowedEmailAddresses (signinUnblock config)
   = Some Fixture.mozilla_com
   /\ (request_context request = None
       \/ SigninUnblock.supportedClients (signinUnblock config) = []))
  /\ isSigninUnblockEnabledForUser (Fixture.stub Fixture.cohort_02) config
       (UidString "wibble") "blee@mozilla.org" request []
     = (Normal false, []).
Proof.
  intros config request. split; [split; [reflexivity|now left]|].
  exact (isSigninUnblockEnabledForUser_without_context
           (Fixture.stub Fixture.cohort_02) config (UidString "wibble")
           "blee@mozilla.org" request [] Fixture.mozilla_com eq_refl
           (or_introl eq_refl)).
Defined.

Lemma existsb_same_members (f : string -> bool) l1 l2 :
  (forall c, In c l1 <-> In c l2) -> existsb f l1 = existsb f l2.
Proof.
  intros Hsame. apply eq_true_iff_eq. rewrite !existsb_exists.
  split; intros (x & Hin & Hx); exists x; split; try assumption;
    now apply Hsame.
Qed.

(** X12: the supported clients are a set to both sign-in gates: two lists
    with the same members, in any order and with any repetitions, give
    the same result and the same calls. *)
Theorem supported_clients_as_a_set
  sha1_hex config clients1 clients2 uid email request log :
  (forall c, In c clients1 <-> In c clients2) ->
  isSigninConfirmationEnabledForUser sha1_hex
    (set_confirmation_clients clients1 config) uid email request log
  = isSigninConfirmationEnabledForUser sha1_hex
      (set_confirmation_clients clients2 config) uid email request log
  /\ isSigninUnblockEnabledForUser sha1_hex
       (set_unblock_clients clients1 config) uid email request log
     = isSigninUnblockEnabledForUser sha1_hex
         (set_unblock_clients clients2 config) uid email request log.
Proof.
  intros Hsame.
  assert (Hindex :
    (indexOf clients1 (request_context request) =? -1)
    = (indexOf clients2 (request_context request) =? -1)).
  { rewrite !indexOf_supported. f_equal. unfold Spec.supported.
    destruct (request_context request) as [c|]; [|reflexivity].
    now apply existsb_same_members. }
  unfold isSigninConfirmationEnabledForUser, isSigninUnblockEnabledForUser,
    set_confirmation_clients, set_unblock_clients; cbv zeta;
    cbn [signinConfirmation signinUnblock
         SigninConfirmation.enabled SigninConfirmation.sample_rate
         SigninConfirmation.forcedEmailAddresses
         SigninConfirmation.supportedClients
         SigninUnblock.enabled SigninUnblock.sampleRate
         SigninUnblock.forcedEmailAddresses
         SigninUnblock.allowedEmailAddresses SigninUnblock.supportedClients].
  now rewrite Hindex.
Qed.

Lemma supported_clients_as_a_set_witness :
  let clients1 := ["wibble"; "iframe"] in
  let clients2 := ["iframe"; "wibble"; "iframe"] in
  let config :=
    Fixture.with_confirmation
      (Fixture.confirmation true (Fixture.rate 3) Fixture.mozilla_org)
      Fixture.base in
  isSigninConfirmationEnabledForUser (Fixture.stub Fixture.cohort_02)
    (set_confirmation_clients clients1 config) (UidString "wibble")
    "blee@mozilla.com" (Fixture.request false "iframe") []
  = isSigninConfirmationEnabledForUser (Fixture.stub Fixture.cohort_02)
      (set_confirmation_clients clients2 config) (UidString "wibble")
      "blee@mozilla.com" (Fixture.request false "iframe") [].
Proof.
  intros clients1 clients2 config.
  refine (proj1 (supported_clients_as_a_set (Fixture.stub Fixture.cohort_02)
                   config clients1 clients2 (UidString "wibble")
                   "blee@mozilla.com" (Fixture.request false "iframe") []
                   _)).
  intro c. subst clients1 clients2. simpl. tauto.
Defined.

(** ** The gates at the two ends of a roll-out *)

Lemma isSampledUser_at_one sha1_hex sampleRate uid key log :
  Num.strict_eq sampleRate Num.one = true ->
  isSampledUser sha1_hex sampleRate uid key log = (Normal true, log).
Proof. intros H. unfold isSampledUser. now rewrite H. Qed.

Lemma isSampledUser_at_zero sha1_hex sampleRate uid key log :
  Num.strict_eq sampleRate Num.zero = true ->
  isSampledUser sha1_hex sampleRate uid key log = (Normal false, log).
Proof.
  intros H. unfold isSampledUser. rewrite H.
  apply strict_eq_zero_inv in H as [s ->]. now destruct s.
Qed.

(** X13: with a sample rate of 1 sign-in confirmation is required of
    every request from a supported client (and of suspicious requests and
    forced emails from any client); with a sample rate of 0, or of -0, it
    is required of suspicious requests and forced emails only.  Neither
    computes a digest. *)
Theorem isSigninConfirmationEnabledForUser_roll_out_ends
  sha1_hex config uid email request log :
  let gate := signinConfirmation config in
  let run :=
    isSigninConfirmationEnabledForUser sha1_hex config uid email request
      log in
  let override :=
    isSuspiciousRequest (app request)
    || test (SigninConfirmation.forcedEmailAddresses gate) email in
  (Num.strict_eq (SigninConfirmation.sample_rate gate) Num.one = true ->
   run = (Normal (SigninConfirmation.enabled gate
                  && (override
                      || Spec.supported
                           (SigninConfirmation.supportedClients gate)
                           (request_context request))),
          log))
  /\ (Num.strict_eq (SigninConfirmation.sample_rate gate) Num.zero = true ->
      run = (Normal (SigninConfirmation.enabled gate && override), log)).
Proof.
  intros gate run override. subst run override.
  unfold isSigninConfirmationEnabledForUser; cbv zeta. fold gate.
  rewrite indexOf_supported.
  split; intros Hrate;
    destruct (SigninConfirmation.enabled gate); try reflexivity;
    destruct (isSuspiciousRequest (app request)); try reflexivity;
    destruct (test _ email); try reflexivity;
    destruct (Spec.supported _ _); cbn [negb andb orb];
    first [reflexivity
          |now apply isSampledUser_at_one
          |now apply isSampledUser_at_zero].
Qed.

(** X14: with a sample rate of 1 [isLastAccessTimeEnabledForUser] returns
    whether the feature is enabled and never looks at the enabled-email
    pattern, which may even be absent; with a sample rate of 0 an enabled
    feature returns whether the email matches the pattern, and throws
    when the pattern is absent.  Neither computes a digest. *)
Theorem isLastAccessTimeEnabledForUser_roll_out_ends
  sha1_hex config uid email log :
  let gate := lastAccessTimeUpdates config in
  let run := isLastAccessTimeEnabledForUser sha1_hex config uid email log in
  (Num.strict_eq (LastAccessTimeUpdates.sampleRate gate) Num.one = true ->
   run = (Normal (LastAccessTimeUpdates.enabled gate), log))
  /\ (Num.strict_eq (LastAccessTimeUpdates.sampleRate gate) Num.zero = true ->
      run = if LastAccessTimeUpdates.enabled gate
            then match LastAccessTimeUpdates.enabledEmailAddresses gate with
                 | Some re => (Normal (test re email), log)
                 | None => (Throw TypeError, log)
                 end
            else (Normal false, log)).
Proof.
  intros gate run. subst run.
  unfold isLastAccessTimeEnabledForUser, bind; cbv zeta. fold gate.
  split; intros Hrate;
    destruct (LastAccessTimeUpdates.enabled gate); try reflexivity; cbv beta;
    [rewrite (isSampledUser_at_one _ _ _ _ _ Hrate)
    |rewrite (isSampledUser_at_zero _ _ _ _ _ Hrate)];
    [reflexivity|].
  now destruct (LastAccessTimeUpdates.enabledEmailAddresses gate).
Qed.

(** ** Gates together *)

(** X15: while sign-in confirmation is enabled, an email that matches its
    forced pattern is both required to confirm and barred from the bypass,
    for every user id, request, sample rate and security history; neither
    decision computes a digest. *)
Theorem forced_email_confirms_and_cannot_bypass
  sha1_hex config uid email request verified recency log :
  let gate := signinConfirmation config in
  SigninConfirmation.enabled gate = true ->
  test (SigninConfirmation.forcedEmailAddresses gate) email = true ->
  isSigninConfirmationEnabledForUser sha1_hex config uid email request log
  = (Normal true, log)
  /\ canBypassSiginConfirmation config email verified recency log
     = (Normal (VBool false), log).
Proof.
  intros gate Henabled Hforced.
  unfold isSigninConfirmationEnabledForUser, canBypassSiginConfirmation;
    cbv zeta. fold gate. rewrite Henabled, Hforced. cbn [negb andb].
  now destruct (isSuspiciousRequest (app request)).
Qed.

Lemma forced_email_confirms_and_cannot_bypass_witness :
  let config :=
    Fixture.with_confirmation
      (Fixture.confirmation true Num.zero Fixture.force_com)
      (Fixture.with_history (Fixture.history true (Some true)) Fixture.base) in
  (SigninConfirmation.enabled (signinConfirmation config) = true
   /\ test (SigninConfirmation.forcedEmailAddresses
              (signinConfirmation config)) "test@force.com" = true)
  /\ isSigninConfirmationEnabledForUser (Fixture.stub Fixture.cohort_02)
       config (UidString "wibble") "test@force.com"
       (Fixture.request false "") [] = (Normal true, [])
  /\ canBypassSiginConfirmation config "test@force.com" true "day" []
     = (Normal (VBool false), []).
Proof.
  intros config. split; [split; reflexivity|].
  exact (forced_email_confirms_and_cannot_bypass
           (Fixture.stub Fixture.cohort_02) config (UidString "wibble")
           "test@force.com" (Fixture.request false "") true "day" []
           eq_refl eq_refl).
Defined.
